(** * lit-analyzer: adapter layer between the HTML/CSS language services
      and the plugin's own data shapes.

    A shallow embedding of three source files:
    - [get-html-data]            -> [Module HtmlData]
    - [completions-at-offset.ts] -> [Module HtmlCompletions]
    - [vscode-css-service.ts]    -> [Module VscodeCss]

    JavaScript arrays are lists, strings are [string], numbers that hold
    offsets and line numbers are [Z], and [undefined]/[null] is [None].
    Functions and constants that the sources import from elsewhere are
    Section variables. *)

From Stdlib Require Import List String ZArith Bool Lia.
Import ListNotations.
Local Open Scope string_scope.
Local Open Scope list_scope.

(* ================================================================== *)
(** * getHtmlData *)
(* ================================================================== *)

Module HtmlData.

(** [SimpleTypeKind] of ts-simple-type is a string enum; only the member
    [ANY] is mentioned by this file. *)
Definition SimpleTypeKind := string.
Definition ANY : SimpleTypeKind := "ANY".

(** What [getHtmlData] needs from ts-simple-type's [SimpleType]: reading the
    [kind] field, and the object literal [{ kind: SimpleTypeKind.ANY }]. *)
Class SimpleTypeOps (SimpleType : Type) := {
  kind : SimpleType -> SimpleTypeKind;
  anyType : SimpleType;
  kind_anyType : kind anyType = ANY
}.

Section GetHtmlData.

Context {SimpleType : Type} `{SimpleTypeOps SimpleType}.

(** The fields of [HtmlTagAttr] other than [name] and [type] are never read
    or written here; the object spread carries them along.  [attr_rest] is
    [None] for an object literal that sets none of them. *)
Context {AttrRest : Type}.

(** Entries of the HTML5 tables of vscode-html-languageservice. *)
Context {ITagData IAttributeData IValueSet : Type}.

Record HtmlTagAttr := {
  attr_name : string;
  attr_type : SimpleType;
  attr_rest : option AttrRest
}.

Record HtmlTag := {
  tag_name : string;
  tag_attributes : list HtmlTagAttr;
  tag_hasDeclaration : option bool;
  tag_description : option string
}.

Record HtmlDataResult := {
  tags : list HtmlTag;
  globalAttrs : list HtmlTagAttr
}.

Record HTMLDataV1 := {
  data_version : Z;
  data_tags : list ITagData;
  data_globalAttributes : list IAttributeData;
  data_valueSets : list IValueSet
}.

Record Config := {
  globalHtmlTags : list string;
  globalHtmlAttributes : list string
}.

Variable HTML5_TAGS : list ITagData.
Variables HTML5_GLOBAL_ATTRIBUTES HTML5_EVENTS : list IAttributeData.
Variable HTML5_VALUE_MAP : list IValueSet.

(** Imported from [./parsing/parse-html-data/parse-html-data] and
    [./extra-html-data]. *)
Variable parseHtmlData : HTMLDataV1 -> HtmlDataResult.
Variable html5TagAttrType : string -> SimpleType.

(** [result.tags.push(...)] and [result.globalAttrs.push(...)] append to the
    arrays of the freshly parsed [result]; the final object literal maps over
    the arrays so extended.  Its spread [...result] is overridden on both
    fields of the result, and the spreads [...tag] and [...attr] copy the
    fields that the literal does not set. *)
Definition getHtmlData (config : Config) : HtmlDataResult :=
  let result := parseHtmlData {|
    data_version := 1;
    data_tags := HTML5_TAGS;
    data_globalAttributes := HTML5_GLOBAL_ATTRIBUTES ++ HTML5_EVENTS;
    data_valueSets := HTML5_VALUE_MAP
  |} in
  let result_tags :=
    tags result ++ [ {|
      tag_attributes := [];
      tag_name := "svg";
      tag_hasDeclaration := Some false;
      tag_description := Some ""
    |} ] in
  let result_tags :=
    result_tags ++
    map (fun tagName => {|
           tag_name := tagName;
           tag_attributes := [];
           tag_hasDeclaration := None;
           tag_description := None
         |}) (globalHtmlTags config) in
  let result_globalAttrs :=
    globalAttrs result ++
    map (fun attrName => {|
           attr_name := attrName;
           attr_type := anyType;
           attr_rest := None
         |}) (globalHtmlAttributes config) in
  {|
    tags :=
      map (fun tag => {|
             tag_name := tag_name tag;
             tag_hasDeclaration := tag_hasDeclaration tag;
             tag_description := tag_description tag;
             tag_attributes :=
               map (fun attr => {|
                      attr_name := attr_name attr;
                      attr_rest := attr_rest attr;
                      attr_type :=
                        if String.eqb (kind (attr_type attr)) ANY
                        then html5TagAttrType (attr_name attr)
                        else attr_type attr
                    |}) (tag_attributes tag)
           |}) result_tags;
    globalAttrs :=
      map (fun attr => {|
             attr_name := attr_name attr;
             attr_rest := attr_rest attr;
             attr_type :=
               if String.eqb (kind (attr_type attr)) ANY
               then html5TagAttrType (attr_name attr)
               else attr_type attr
           |}) result_globalAttrs
  |}.

(** ** Names for the pieces of [getHtmlData] *)

(** The argument of [parseHtmlData]. *)
Definition html5Data : HTMLDataV1 := {|
  data_version := 1;
  data_tags := HTML5_TAGS;
  data_globalAttributes := HTML5_GLOBAL_ATTRIBUTES ++ HTML5_EVENTS;
  data_valueSets := HTML5_VALUE_MAP
|}.

Definition svgTag : HtmlTag := {|
  tag_name := "svg";
  tag_attributes := [];
  tag_hasDeclaration := Some false;
  tag_description := Some ""
|}.

Definition customTag (tagName : string) : HtmlTag := {|
  tag_name := tagName;
  tag_attributes := [];
  tag_hasDeclaration := None;
  tag_description := None
|}.

Definition customAttr (attrName : string) : HtmlTagAttr := {|
  attr_name := attrName;
  attr_type := anyType;
  attr_rest := None
|}.

Definition isAny (attr : HtmlTagAttr) : bool :=
  String.eqb (kind (attr_type attr)) ANY.

(** The arrow function applied to every attribute in the returned object. *)
Definition retypeAttr (attr : HtmlTagAttr) : HtmlTagAttr := {|
  attr_name := attr_name attr;
  attr_rest := attr_rest attr;
  attr_type := if isAny attr then html5TagAttrType (attr_name attr)
               else attr_type attr
|}.

(** The arrow function applied to every tag in the returned object. *)
Definition retypeTag (tag : HtmlTag) : HtmlTag := {|
  tag_name := tag_name tag;
  tag_hasDeclaration := tag_hasDeclaration tag;
  tag_description := tag_description tag;
  tag_attributes := map retypeAttr (tag_attributes tag)
|}.

(** The arrays of [result] after the three [push] calls. *)
Definition mergedTags (config : Config) : list HtmlTag :=
  tags (parseHtmlData html5Data) ++ svgTag :: map customTag (globalHtmlTags config).

Definition mergedGlobalAttrs (config : Config) : list HtmlTagAttr :=
  globalAttrs (parseHtmlData html5Data)
  ++ map customAttr (globalHtmlAttributes config).

(** ** Shape of the result *)

Lemma getHtmlData_unfold (config : Config) :
  getHtmlData config =
  {| tags := map retypeTag (mergedTags config);
     globalAttrs := map retypeAttr (mergedGlobalAttrs config) |}.
Proof.
  unfold getHtmlData, mergedTags, mergedGlobalAttrs.
  rewrite <- app_assoc. reflexivity.
Qed.

Lemma isAny_spec (attr : HtmlTagAttr) :
  isAny attr = true <-> kind (attr_type attr) = ANY.
Proof. unfold isAny. apply String.eqb_eq. Qed.

Lemma retypeAttr_any (attr : HtmlTagAttr) :
  kind (attr_type attr) = ANY ->
  retypeAttr attr =
  {| attr_name := attr_name attr;
     attr_type := html5TagAttrType (attr_name attr);
     attr_rest := attr_rest attr |}.
Proof.
  intros Hk. unfold retypeAttr.
  apply isAny_spec in Hk. now rewrite Hk.
Qed.

Lemma retypeAttr_not_any (attr : HtmlTagAttr) :
  kind (attr_type attr) <> ANY -> retypeAttr attr = attr.
Proof.
  intros Hk. unfold retypeAttr.
  destruct (isAny attr) eqn:E.
  - apply isAny_spec in E. contradiction.
  - now destruct attr.
Qed.

Lemma retypeAttr_name (attr : HtmlTagAttr) :
  attr_name (retypeAttr attr) = attr_name attr.
Proof. reflexivity. Qed.

Lemma retypeTag_no_attributes (tag : HtmlTag) :
  tag_attributes tag = [] -> retypeTag tag = tag.
Proof.
  destruct tag as [n a d s]; simpl. intros ->. reflexivity.
Qed.

Lemma retypeTag_customTags (names : list string) :
  map retypeTag (map customTag names) = map customTag names.
Proof.
  induction names as [|n names IH]; simpl; [reflexivity|].
  now rewrite IH.
Qed.

Lemma retypeTag_parsed_unchanged (parsedTags : list HtmlTag) :
  (forall tag attr, In tag parsedTags -> In attr (tag_attributes tag) ->
                    kind (attr_type attr) <> ANY) ->
  map retypeTag parsedTags = parsedTags.
Proof.
  intros Hno. rewrite <- (map_id parsedTags) at 2.
  apply map_ext_in. intros tag Htag.
  destruct tag as [n attrs d s]; unfold retypeTag; simpl. f_equal.
  rewrite <- (map_id attrs) at 2.
  apply map_ext_in. intros attr Hattr.
  apply retypeAttr_not_any. exact (Hno _ _ Htag Hattr).
Qed.

(** C1 (amended): for every config the returned tag list is the parsed HTML5
    tag list, each parsed tag carrying its attributes retyped by the final
    [map], extended with the 'svg' tag (empty attributes, hasDeclaration
    false, empty description) followed by exactly one tag per name of
    [config.globalHtmlTags], in order, each with that name and an empty
    attribute list.  In particular the tag names of the result are the parsed
    tag names, then "svg", then the configured names. *)
Theorem getHtmlData_tags (config : Config) :
  tags (getHtmlData config) =
    map retypeTag (tags (parseHtmlData html5Data))
    ++ svgTag :: map customTag (globalHtmlTags config)
  /\ map tag_name (tags (getHtmlData config)) =
       map tag_name (tags (parseHtmlData html5Data))
       ++ "svg" :: globalHtmlTags config
  /\ List.length (tags (getHtmlData config)) =
       (List.length (tags (parseHtmlData html5Data)) + 1
        + List.length (globalHtmlTags config))%nat.
Proof.
  rewrite getHtmlData_unfold; simpl. unfold mergedTags.
  assert (E : map retypeTag
                (tags (parseHtmlData html5Data)
                 ++ svgTag :: map customTag (globalHtmlTags config)) =
              map retypeTag (tags (parseHtmlData html5Data))
              ++ svgTag :: map customTag (globalHtmlTags config)).
  { rewrite map_app. simpl. rewrite retypeTag_customTags. reflexivity. }
  rewrite E. split; [reflexivity|]. split.
  - rewrite map_app. simpl. rewrite !map_map. simpl.
    rewrite map_id. reflexivity.
  - rewrite List.length_app. simpl. rewrite !List.length_map. lia.
Qed.

(** C2 (amended): in the result of [getHtmlData] every attribute, of a tag or
    global, is the merged attribute passed through [retypeAttr]: when its type
    kind is ANY after merging the type becomes [html5TagAttrType name], and
    otherwise the attribute is unchanged.  Every name of
    [config.globalHtmlAttributes] appears in the returned [globalAttrs] with
    type [html5TagAttrType name], and a returned global attribute has a type
    of kind ANY only when that type is what [html5TagAttrType] returned for
    its name. *)
Theorem getHtmlData_retypes_any (config : Config) :
  globalAttrs (getHtmlData config) = map retypeAttr (mergedGlobalAttrs config)
  /\ Forall2 (fun merged tag =>
                tag_attributes tag = map retypeAttr (tag_attributes merged))
             (mergedTags config) (tags (getHtmlData config))
  /\ (forall attr, kind (attr_type attr) = ANY ->
        attr_type (retypeAttr attr) = html5TagAttrType (attr_name attr))
  /\ (forall attr, kind (attr_type attr) <> ANY -> retypeAttr attr = attr)
  /\ (forall attrName, In attrName (globalHtmlAttributes config) ->
        In {| attr_name := attrName;
              attr_type := html5TagAttrType attrName;
              attr_rest := None |}
           (globalAttrs (getHtmlData config)))
  /\ (forall attr, In attr (globalAttrs (getHtmlData config)) ->
        kind (attr_type attr) = ANY ->
        attr_type attr = html5TagAttrType (attr_name attr)).
Proof.
  rewrite getHtmlData_unfold; cbn [tags globalAttrs].
  split; [reflexivity|]. split.
  { induction (mergedTags config) as [|t ts IH]; simpl; constructor; auto. }
  split.
  { intros attr Hk. now rewrite retypeAttr_any. }
  split.
  { exact retypeAttr_not_any. }
  split.
  - intros attrName Hin. unfold mergedGlobalAttrs.
    rewrite map_app. apply in_or_app. right.
    rewrite map_map. apply in_map_iff. exists attrName. split; [|exact Hin].
    cbv beta. rewrite retypeAttr_any by apply kind_anyType. reflexivity.
  - intros attr Hin Hk.
    apply in_map_iff in Hin. destruct Hin as [a0 [<- _]].
    destruct (String.eqb_spec (kind (attr_type a0)) ANY) as [E|E].
    + now rewrite retypeAttr_any.
    + rewrite retypeAttr_not_any in Hk by exact E. contradiction.
Qed.

(** ** Further properties of [getHtmlData] *)

Lemma retypeAttr_idempotent (attr : HtmlTagAttr) :
  retypeAttr (retypeAttr attr) = retypeAttr attr.
Proof.
  destruct (String.eqb_spec (kind (attr_type attr)) ANY) as [E|E].
  - rewrite (retypeAttr_any attr E).
    destruct (String.eqb_spec (kind (html5TagAttrType (attr_name attr))) ANY)
      as [E'|E'].
    + rewrite retypeAttr_any by exact E'. reflexivity.
    + rewrite retypeAttr_not_any by exact E'. reflexivity.
  - rewrite (retypeAttr_not_any attr E). apply retypeAttr_not_any, E.
Qed.

Lemma retypeTag_idempotent (tag : HtmlTag) :
  retypeTag (retypeTag tag) = retypeTag tag.
Proof.
  unfold retypeTag; cbn [tag_name tag_hasDeclaration tag_description
                         tag_attributes].
  f_equal. rewrite map_map. apply map_ext. exact retypeAttr_idempotent.
Qed.

Lemma getHtmlData_tag_names (config : Config) :
  map tag_name (tags (getHtmlData config)) =
  map tag_name (tags (parseHtmlData html5Data))
  ++ "svg" :: globalHtmlTags config.
Proof.
  rewrite getHtmlData_unfold; cbn [tags]. unfold mergedTags.
  rewrite map_map. cbn [retypeTag tag_name].
  rewrite map_app. cbn [map svgTag tag_name]. rewrite map_map.
  cbn [customTag tag_name]. rewrite map_id. reflexivity.
Qed.

(** X1: retyping the returned data once more changes nothing: every
    attribute of the result, global or of a tag, is a fixed point of the
    replacement of ANY by [html5TagAttrType name], also when the helper
    answers ANY itself. *)
Theorem getHtmlData_retyping_stable (config : Config) :
  map retypeAttr (globalAttrs (getHtmlData config))
    = globalAttrs (getHtmlData config)
  /\ map retypeTag (tags (getHtmlData config)) = tags (getHtmlData config).
Proof.
  rewrite getHtmlData_unfold; cbn [tags globalAttrs].
  rewrite !map_map. split; apply map_ext.
  - exact retypeAttr_idempotent.
  - exact retypeTag_idempotent.
Qed.

Lemma retypeAttr_any_iff (attr : HtmlTagAttr) :
  kind (attr_type (retypeAttr attr)) = ANY <->
  kind (attr_type attr) = ANY
  /\ kind (html5TagAttrType (attr_name attr)) = ANY.
Proof.
  destruct (String.eqb_spec (kind (attr_type attr)) ANY) as [E|E].
  - rewrite (retypeAttr_any attr E). cbn [attr_type]. tauto.
  - rewrite (retypeAttr_not_any attr E). tauto.
Qed.

(** X2: a returned attribute, global or of a tag, has a type of kind ANY
    exactly when the merged attribute at its position had kind ANY and
    [html5TagAttrType] answers a type of kind ANY for its name; so a name of
    [config.globalHtmlAttributes] is returned with kind ANY exactly when the
    helper answers ANY for it. *)
Theorem getHtmlData_any_exactly_from_helper (config : Config) :
  let sameAny := fun merged out =>
    kind (attr_type out) = ANY <->
    kind (attr_type merged) = ANY
    /\ kind (html5TagAttrType (attr_name merged)) = ANY in
  Forall2 sameAny (mergedGlobalAttrs config) (globalAttrs (getHtmlData config))
  /\ Forall2 (fun mergedTag tag =>
                Forall2 sameAny (tag_attributes mergedTag) (tag_attributes tag))
             (mergedTags config) (tags (getHtmlData config))
  /\ (forall attrName, In attrName (globalHtmlAttributes config) ->
        (kind (html5TagAttrType attrName) = ANY <->
         exists attr,
           In attr (map retypeAttr (map customAttr (globalHtmlAttributes config)))
           /\ attr_name attr = attrName /\ kind (attr_type attr) = ANY))
  /\ globalAttrs (getHtmlData config) =
       map retypeAttr (globalAttrs (parseHtmlData html5Data))
       ++ map retypeAttr (map customAttr (globalHtmlAttributes config)).
Proof.
  cbv zeta. rewrite getHtmlData_unfold; cbn [tags globalAttrs].
  assert (A : forall attrs : list HtmlTagAttr,
            Forall2 (fun merged out =>
                       kind (attr_type out) = ANY <->
                       kind (attr_type merged) = ANY
                       /\ kind (html5TagAttrType (attr_name merged)) = ANY)
                    attrs (map retypeAttr attrs)).
  { induction attrs as [|a attrs IH]; cbn [map]; constructor;
      [apply retypeAttr_any_iff | exact IH]. }
  split; [apply A|]. split; [|split].
  - induction (mergedTags config) as [|t ts IH]; cbn [map]; constructor;
      [cbn [retypeTag tag_attributes]; apply A | exact IH].
  - intros attrName Hin. split.
    + intros Hany. exists (retypeAttr (customAttr attrName)). split; [|split].
      * apply in_map, in_map, Hin.
      * reflexivity.
      * apply retypeAttr_any_iff. split; [apply kind_anyType | exact Hany].
    + intros [attr (Hattr & Hname & Hany)].
      apply in_map_iff in Hattr. destruct Hattr as [a0 [<- Ha0]].
      apply in_map_iff in Ha0. destruct Ha0 as [n [<- _]].
      cbn [retypeAttr customAttr attr_name] in Hname. subst n.
      apply retypeAttr_any_iff in Hany. exact (proj2 Hany).
  - unfold mergedGlobalAttrs. apply map_app.
Qed.

(** X3: no attribute is renamed, dropped, reordered or merged: the names of
    the returned global attributes are the parsed names followed by the
    names of [config.globalHtmlAttributes], and each returned tag has the
    name, declaration flag, description and attribute names of the merged
    tag at its position. *)
Theorem getHtmlData_keeps_names (config : Config) :
  map attr_name (globalAttrs (getHtmlData config)) =
    map attr_name (globalAttrs (parseHtmlData html5Data))
    ++ globalHtmlAttributes config
  /\ Forall2 (fun merged tag =>
                tag_name tag = tag_name merged
                /\ tag_hasDeclaration tag = tag_hasDeclaration merged
                /\ tag_description tag = tag_description merged
                /\ map attr_name (tag_attributes tag) =
                     map attr_name (tag_attributes merged)
                /\ map attr_rest (tag_attributes tag) =
                     map attr_rest (tag_attributes merged))
             (mergedTags config) (tags (getHtmlData config)).
Proof.
  rewrite getHtmlData_unfold; cbn [tags globalAttrs]. split.
  - unfold mergedGlobalAttrs. rewrite map_map. cbn [retypeAttr attr_name].
    rewrite map_app, map_map. cbn [customAttr attr_name].
    rewrite map_id. reflexivity.
  - induction (mergedTags config) as [|t ts IH]; cbn [map]; constructor; auto.
    cbn [retypeTag tag_name tag_hasDeclaration tag_description tag_attributes].
    repeat split; rewrite map_map; reflexivity.
Qed.

(** X4: adding names at the end of the two lists of the config only appends
    to the result: the tags and global attributes returned for the shorter
    config come first, unchanged, followed by one tag per added tag name and
    one attribute, typed by [html5TagAttrType], per added attribute name. *)
Theorem getHtmlData_config_append (config : Config)
    (moreTags moreAttrs : list string) :
  let extended := {|
    globalHtmlTags := globalHtmlTags config ++ moreTags;
    globalHtmlAttributes := globalHtmlAttributes config ++ moreAttrs
  |} in
  tags (getHtmlData extended) =
    tags (getHtmlData config) ++ map customTag moreTags
  /\ globalAttrs (getHtmlData extended) =
       globalAttrs (getHtmlData config)
       ++ map (fun attrName => {| attr_name := attrName;
                                  attr_type := html5TagAttrType attrName;
                                  attr_rest := None |}) moreAttrs.
Proof.
  cbv zeta. rewrite !getHtmlData_unfold; cbn [tags globalAttrs].
  unfold mergedTags, mergedGlobalAttrs; cbn [globalHtmlTags globalHtmlAttributes].
  split.
  - rewrite !map_app. cbn [map]. rewrite !map_app, <- app_assoc.
    cbn [app]. rewrite (retypeTag_customTags moreTags). reflexivity.
  - rewrite !map_app, <- app_assoc. do 2 f_equal.
    rewrite map_map. apply map_ext. intros attrName.
    rewrite retypeAttr_any by apply kind_anyType. reflexivity.
Qed.

(** X5: tags are never merged by name: a name occurs among the returned
    tags as often as among the parsed tags and in [config.globalHtmlTags]
    together, once more for "svg"; a configured name that the parsed data
    already has is therefore returned at least twice. *)
Theorem getHtmlData_tag_name_count (config : Config) (tagName : string) :
  count_occ string_dec (map tag_name (tags (getHtmlData config))) tagName =
    (count_occ string_dec
       (map tag_name (tags (parseHtmlData html5Data))) tagName
     + (if string_dec "svg" tagName then 1 else 0)
     + count_occ string_dec (globalHtmlTags config) tagName)%nat
  /\ (In tagName (map tag_name (tags (parseHtmlData html5Data))) ->
      In tagName (globalHtmlTags config) ->
      (2 <= count_occ string_dec
              (map tag_name (tags (getHtmlData config))) tagName)%nat).
Proof.
  assert (E : count_occ string_dec
                (map tag_name (tags (getHtmlData config))) tagName =
              (count_occ string_dec
                 (map tag_name (tags (parseHtmlData html5Data))) tagName
               + (if string_dec "svg" tagName then 1 else 0)
               + count_occ string_dec (globalHtmlTags config) tagName)%nat).
  { rewrite getHtmlData_tag_names, count_occ_app. cbn [count_occ].
    destruct (string_dec "svg" tagName); lia. }
  split; [exact E|].
  intros Hparsed Hconfig. rewrite E.
  apply (count_occ_In string_dec) in Hparsed.
  apply (count_occ_In string_dec) in Hconfig. lia.
Qed.

End GetHtmlData.

Arguments HtmlTagAttr : clear implicits.
Arguments HtmlTag : clear implicits.
Arguments HtmlDataResult : clear implicits.
Arguments HTMLDataV1 : clear implicits.

(** ** A concrete instance

    A two-field reading of ts-simple-type's [SimpleType], a parse result with
    one tag and one global attribute, and an attribute-type table with two
    entries that answers [ANY] (carrying the name) for every other name. *)

Record TsSimpleType := {
  ts_kind : SimpleTypeKind;
  ts_name : option string
}.

#[export] Instance TsSimpleTypeOps : SimpleTypeOps TsSimpleType := {|
  kind := ts_kind;
  anyType := {| ts_kind := ANY; ts_name := None |};
  kind_anyType := eq_refl
|}.

Definition sample_parseHtmlData (data : HTMLDataV1 unit unit unit)
  : HtmlDataResult TsSimpleType unit := {|
  tags := [ {| tag_name := "a";
               tag_attributes :=
                 [ {| attr_name := "href"; attr_type := anyType;
                      attr_rest := None |} ];
               tag_hasDeclaration := None;
               tag_description := Some "anchor" |} ];
  globalAttrs :=
    [ {| attr_name := "hidden";
         attr_type := {| ts_kind := "BOOLEAN"; ts_name := None |};
         attr_rest := None |} ]
|}.

Definition sample_html5TagAttrType (attrName : string) : TsSimpleType :=
  if String.eqb attrName "href"
  then {| ts_kind := "STRING"; ts_name := Some attrName |}
  else if String.eqb attrName "hidden"
  then {| ts_kind := "BOOLEAN"; ts_name := Some attrName |}
  else {| ts_kind := ANY; ts_name := Some attrName |}.

Definition sample_config : Config := {|
  globalHtmlTags := ["my-element"];
  globalHtmlAttributes := ["my-attr"]
|}.

Definition sample_getHtmlData : Config -> HtmlDataResult TsSimpleType unit :=
  getHtmlData [] [] [] [] sample_parseHtmlData sample_html5TagAttrType.

Example sample_getHtmlData_tag_names :
  map tag_name (tags (sample_getHtmlData sample_config))
  = ["a"; "svg"; "my-element"].
Proof. reflexivity. Qed.

(** C1, as stated, fails: the parsed tag "a" has an attribute of kind ANY,
    which the returned list carries with another type, so the returned list
    is not the parsed list extended with the svg tag and the custom tags. *)
Lemma parsed_tags_not_returned_verbatim :
  tags (sample_getHtmlData sample_config) <>
  tags (sample_parseHtmlData (html5Data [] [] [] []))
  ++ svgTag :: map customTag (globalHtmlTags sample_config).
Proof. vm_compute. discriminate. Qed.

(** C2, as stated, fails: "my-attr" is listed in
    [config.globalHtmlAttributes], and it is returned with a type of kind
    ANY, the one [html5TagAttrType "my-attr"] answers. *)
Lemma getHtmlData_custom_attr_still_any :
  In "my-attr" (globalHtmlAttributes sample_config)
  /\ exists attr,
       In attr (globalAttrs (sample_getHtmlData sample_config))
       /\ attr_name attr = "my-attr"
       /\ kind (attr_type attr) = ANY.
Proof.
  split; [simpl; auto|].
  exists {| attr_name := "my-attr";
            attr_type := {| ts_kind := ANY; ts_name := Some "my-attr" |};
            attr_rest := None |}.
  vm_compute. auto.
Qed.

Lemma getHtmlData_retypes_any_witness :
  In {| attr_name := "my-attr";
        attr_type := sample_html5TagAttrType "my-attr";
        attr_rest := None |}
     (globalAttrs (sample_getHtmlData sample_config))
  /\ attr_type
       (retypeAttr sample_html5TagAttrType
          {| attr_name := "href"; attr_type := anyType;
             attr_rest := @None unit |})
     = sample_html5TagAttrType "href".
Proof.
  destruct (getHtmlData_retypes_any [] [] [] [] sample_parseHtmlData
              sample_html5TagAttrType sample_config)
    as (_ & _ & Hany & _ & Hin & _).
  split.
  - apply Hin. simpl. left. reflexivity.
  - apply Hany. reflexivity.
Defined.

Lemma getHtmlData_any_exactly_from_helper_witness :
  (exists attr,
     In attr (globalAttrs (sample_getHtmlData sample_config))
     /\ attr_name attr = "my-attr" /\ kind (attr_type attr) = ANY)
  /\ kind (sample_html5TagAttrType "my-attr") = ANY.
Proof.
  destruct (getHtmlData_any_exactly_from_helper [] [] [] []
              sample_parseHtmlData sample_html5TagAttrType sample_config)
    as (_ & _ & Hconfigured & Hglobal).
  destruct (proj1 (Hconfigured "my-attr" (or_introl eq_refl)) eq_refl)
    as [attr (Hin & Hname & Hany)].
  split; [|reflexivity].
  exists attr. split; [|split; assumption].
  unfold sample_getHtmlData. rewrite Hglobal.
  apply in_or_app. right. exact Hin.
Defined.

Lemma getHtmlData_tag_name_count_witness :
  (2 <= count_occ string_dec
          (map tag_name
             (tags (sample_getHtmlData
                      {| globalHtmlTags := ["a"];
                         globalHtmlAttributes := [] |}))) "a")%nat.
Proof.
  apply (getHtmlData_tag_name_count [] [] [] [] sample_parseHtmlData
           sample_html5TagAttrType
           {| globalHtmlTags := ["a"]; globalHtmlAttributes := [] |} "a").
  - simpl. left. reflexivity.
  - simpl. left. reflexivity.
Defined.

End HtmlData.

(* ================================================================== *)
(** * Plugin-side data shapes *)
(* ================================================================== *)

Module LitTypes.

(** A range of offsets [{ start, end }]. *)
Record Range := {
  range_start : Z;
  range_end : Z
}.

(** [LitCompletionKind] and the importance levels are unions of string
    literals. *)
Definition LitCompletionKind := string.

(** [LitCompletion], with the fields the sources at hand set.
    [documentation] is a thunk: the source wraps it in [lazy]. *)
Record LitCompletion := {
  name : string;
  kind : LitCompletionKind;
  kindModifiers : option string;
  insert : string;
  range : option Range;
  importance : option string;
  documentation : option (unit -> option string)
}.

(** [{ ...entry, range: r }] *)
Definition withRange (entry : LitCompletion) (r : Range) : LitCompletion := {|
  name := name entry;
  kind := kind entry;
  kindModifiers := kindModifiers entry;
  insert := insert entry;
  range := Some r;
  importance := importance entry;
  documentation := documentation entry
|}.

End LitTypes.

(* ================================================================== *)
(** * completionsAtOffset *)
(* ================================================================== *)

Module HtmlCompletions.
Import LitTypes.
Local Open Scope Z_scope.

Section CompletionsAtOffset.

(** Types declared elsewhere in the repository; of a position context only
    [beforeWord] is read here. *)
Context {HtmlDocument HtmlNode HtmlNodeAttrAssignment DiagnosticsContext
         DocumentPositionContext : Type}.
Variable beforeWord : DocumentPositionContext -> string.

(** Of an [HtmlNodeAttr] the function reads [htmlNode] and
    [location.name]. *)
Record HtmlNodeAttrLocation := {
  location_name : Range
}.

Record HtmlNodeAttr := {
  htmlNode : HtmlNode;
  location : HtmlNodeAttrLocation
}.

Variable getPositionContextInDocument :
  HtmlDocument -> Z -> DocumentPositionContext.

(** Methods of [HtmlDocument]. *)
Variable htmlAttrNameAtOffset : HtmlDocument -> Z -> option HtmlNodeAttr.
Variable htmlAttrAreaAtOffset : HtmlDocument -> Z -> option HtmlNode.
Variable htmlAttrAssignmentAtOffset :
  HtmlDocument -> Z -> option HtmlNodeAttrAssignment.

Variable completionsForHtmlAttrValues :
  HtmlNodeAttrAssignment -> DiagnosticsContext -> list LitCompletion.
Variable completionsForHtmlAttrs :
  HtmlNode -> DiagnosticsContext -> list LitCompletion.
Variable completionsForHtmlNodes :
  DocumentPositionContext -> DiagnosticsContext -> list LitCompletion.

Definition completionsAtOffset (document : HtmlDocument) (offset : Z)
    (context : DiagnosticsContext) : list LitCompletion :=
  let positionContext := getPositionContextInDocument document offset in
  let beforeWord := beforeWord positionContext in
  let intersectingAttr := htmlAttrNameAtOffset document offset in
  let intersectingAttrAreaNode := htmlAttrAreaAtOffset document offset in
  let intersectingAttrAssignment := htmlAttrAssignmentAtOffset document offset in
  match intersectingAttr with
  | Some intersectingAttr =>
      let entries := completionsForHtmlAttrs (htmlNode intersectingAttr) context in
      map (fun entry =>
             withRange entry (location_name (location intersectingAttr)))
          entries
  | None =>
      match intersectingAttrAssignment with
      | Some intersectingAttrAssignment =>
          completionsForHtmlAttrValues intersectingAttrAssignment context
      | None =>
          match intersectingAttrAreaNode with
          | Some intersectingAttrAreaNode =>
              completionsForHtmlAttrs intersectingAttrAreaNode context
          | None =>
              if String.eqb beforeWord "<"
              then completionsForHtmlNodes positionContext context
              else []
          end
      end
  end.

(** C3: the dispatch of [completionsAtOffset], in priority order: an
    intersecting attribute name gives the attribute completions of its node,
    each with its range set to the location of the attribute name; otherwise
    an intersecting assignment gives the attribute-value completions;
    otherwise an intersecting attribute area gives the attribute completions
    of that node; otherwise a word "<" before the offset gives the tag-name
    completions; otherwise the result is empty. *)
Theorem completionsAtOffset_dispatch (document : HtmlDocument) (offset : Z)
    (context : DiagnosticsContext) :
  let result := completionsAtOffset document offset context in
  let positionContext := getPositionContextInDocument document offset in
  (forall attr, htmlAttrNameAtOffset document offset = Some attr ->
     result =
       map (fun entry => withRange entry (location_name (location attr)))
           (completionsForHtmlAttrs (htmlNode attr) context)
     /\ Forall (fun entry => range entry = Some (location_name (location attr)))
               result
     /\ Forall2 (fun entry out =>
                   name out = name entry /\ kind out = kind entry
                   /\ kindModifiers out = kindModifiers entry
                   /\ insert out = insert entry
                   /\ importance out = importance entry
                   /\ documentation out = documentation entry)
                (completionsForHtmlAttrs (htmlNode attr) context) result)
  /\ (htmlAttrNameAtOffset document offset = None ->
      forall assignment,
        htmlAttrAssignmentAtOffset document offset = Some assignment ->
        result = completionsForHtmlAttrValues assignment context)
  /\ (htmlAttrNameAtOffset document offset = None ->
      htmlAttrAssignmentAtOffset document offset = None ->
      forall node,
        htmlAttrAreaAtOffset document offset = Some node ->
        result = completionsForHtmlAttrs node context)
  /\ (htmlAttrNameAtOffset document offset = None ->
      htmlAttrAssignmentAtOffset document offset = None ->
      htmlAttrAreaAtOffset document offset = None ->
      beforeWord positionContext = "<" ->
      result = completionsForHtmlNodes positionContext context)
  /\ (htmlAttrNameAtOffset document offset = None ->
      htmlAttrAssignmentAtOffset document offset = None ->
      htmlAttrAreaAtOffset document offset = None ->
      beforeWord positionContext <> "<" ->
      result = []).
Proof.
  cbv zeta. unfold completionsAtOffset.
  split; [|split; [|split; [|split]]].
  - intros attr Hname. rewrite Hname. split; [reflexivity|]. split.
    + apply Forall_forall. intros out Hin.
      apply in_map_iff in Hin. destruct Hin as [entry [<- _]]. reflexivity.
    + induction (completionsForHtmlAttrs (htmlNode attr) context)
        as [|e es IH]; simpl; constructor; auto.
      repeat split.
  - intros Hname assignment Hassign. now rewrite Hname, Hassign.
  - intros Hname Hassign node Harea. now rewrite Hname, Hassign, Harea.
  - intros Hname Hassign Harea Hword.
    rewrite Hname, Hassign, Harea, Hword. reflexivity.
  - intros Hname Hassign Harea Hword.
    rewrite Hname, Hassign, Harea.
    apply String.eqb_neq in Hword. now rewrite Hword.
Qed.

End CompletionsAtOffset.

Arguments HtmlNodeAttr : clear implicits.

(** ** A concrete instance: nodes and assignments are numbers, and the three
    completion sources answer one entry each. *)

Definition sample_entry (label : string) : LitCompletion := {|
  name := label; kind := "memberVariableElement"; kindModifiers := None;
  insert := label; range := None; importance := Some "high";
  documentation := None
|}.

Definition sample_nameAt (document : list (Z * HtmlNodeAttr Z)) (offset : Z)
  : option (HtmlNodeAttr Z) :=
  match find (fun entry => Z.eqb (fst entry) offset) document with
  | Some entry => Some (snd entry)
  | None => None
  end.

Definition sample_document : list (Z * HtmlNodeAttr Z) :=
  [ (5, {| htmlNode := 1;
           location := {| location_name :=
                            {| range_start := 4; range_end := 9 |} |} |}) ].

Definition sample_completionsAtOffset
  : list (Z * HtmlNodeAttr Z) -> Z -> unit -> list LitCompletion :=
  completionsAtOffset
    (HtmlNodeAttrAssignment := Z) (DocumentPositionContext := string)
    (fun word => word)
    (fun _ offset => if Z.eqb offset 20 then "<" else "x")
    sample_nameAt
    (fun _ offset => if Z.eqb offset 12 then Some 2 else None)
    (fun _ offset => if Z.eqb offset 10 then Some 3 else None)
    (fun _ _ => [sample_entry "value"])
    (fun _ _ => [sample_entry "attr"])
    (fun _ _ => [sample_entry "tag"]).

Example sample_completions_on_attr_name :
  sample_completionsAtOffset sample_document 5 tt =
  [ withRange (sample_entry "attr") {| range_start := 4; range_end := 9 |} ].
Proof. reflexivity. Qed.

Example sample_completions_nowhere :
  sample_completionsAtOffset sample_document 0 tt = [].
Proof. reflexivity. Qed.

Lemma completionsAtOffset_dispatch_witness :
  sample_completionsAtOffset sample_document 5 tt =
    [ withRange (sample_entry "attr") {| range_start := 4; range_end := 9 |} ]
  /\ sample_completionsAtOffset sample_document 10 tt = [sample_entry "value"]
  /\ sample_completionsAtOffset sample_document 12 tt = [sample_entry "attr"]
  /\ sample_completionsAtOffset sample_document 20 tt = [sample_entry "tag"]
  /\ sample_completionsAtOffset sample_document 0 tt = [].
Proof.
  pose proof (fun offset =>
    completionsAtOffset_dispatch
      (HtmlNodeAttrAssignment := Z) (DocumentPositionContext := string)
      (fun word => word)
      (fun _ offset => if Z.eqb offset 20 then "<" else "x")
      sample_nameAt
      (fun _ offset => if Z.eqb offset 12 then Some 2 else None)
      (fun _ offset => if Z.eqb offset 10 then Some 3 else None)
      (fun _ _ => [sample_entry "value"])
      (fun _ _ => [sample_entry "attr"])
      (fun _ _ => [sample_entry "tag"])
      sample_document offset tt) as D.
  cbv zeta in D.
  split; [|split; [|split; [|split]]].
  - destruct (D 5) as (Hname & _).
    exact (proj1 (Hname _ eq_refl)).
  - destruct (D 10) as (_ & Hassign & _).
    exact (Hassign eq_refl _ eq_refl).
  - destruct (D 12) as (_ & _ & Harea & _).
    exact (Harea eq_refl eq_refl _ eq_refl).
  - destruct (D 20) as (_ & _ & _ & Hword & _).
    exact (Hword eq_refl eq_refl eq_refl eq_refl).
  - destruct (D 0) as (_ & _ & _ & _ & Hnone).
    apply (Hnone eq_refl eq_refl eq_refl). discriminate.
Defined.

(** ** What the dispatch leaves unconsulted *)

(** X6: when an attribute name, an attribute assignment or an attribute area
    intersects the offset, the result depends neither on the position
    context, nor on the word before the offset, nor on the tag-name
    completions: any two choices of them give the same completions. *)
Theorem completionsAtOffset_intersection_ignores_word
    {HtmlDocument HtmlNode HtmlNodeAttrAssignment DiagnosticsContext
     PositionContext1 PositionContext2 : Type}
    (beforeWord1 : PositionContext1 -> string)
    (beforeWord2 : PositionContext2 -> string)
    (getPositionContext1 : HtmlDocument -> Z -> PositionContext1)
    (getPositionContext2 : HtmlDocument -> Z -> PositionContext2)
    (htmlAttrNameAtOffset : HtmlDocument -> Z -> option (HtmlNodeAttr HtmlNode))
    (htmlAttrAreaAtOffset : HtmlDocument -> Z -> option HtmlNode)
    (htmlAttrAssignmentAtOffset :
       HtmlDocument -> Z -> option HtmlNodeAttrAssignment)
    (completionsForHtmlAttrValues :
       HtmlNodeAttrAssignment -> DiagnosticsContext -> list LitCompletion)
    (completionsForHtmlAttrs :
       HtmlNode -> DiagnosticsContext -> list LitCompletion)
    (completionsForHtmlNodes1 :
       PositionContext1 -> DiagnosticsContext -> list LitCompletion)
    (completionsForHtmlNodes2 :
       PositionContext2 -> DiagnosticsContext -> list LitCompletion)
    (document : HtmlDocument) (offset : Z) (context : DiagnosticsContext) :
  htmlAttrNameAtOffset document offset <> None
  \/ htmlAttrAssignmentAtOffset document offset <> None
  \/ htmlAttrAreaAtOffset document offset <> None ->
  completionsAtOffset beforeWord1 getPositionContext1 htmlAttrNameAtOffset
    htmlAttrAreaAtOffset htmlAttrAssignmentAtOffset
    completionsForHtmlAttrValues completionsForHtmlAttrs
    completionsForHtmlNodes1 document offset context
  = completionsAtOffset beforeWord2 getPositionContext2 htmlAttrNameAtOffset
      htmlAttrAreaAtOffset htmlAttrAssignmentAtOffset
      completionsForHtmlAttrValues completionsForHtmlAttrs
      completionsForHtmlNodes2 document offset context.
Proof.
  intros Hsome. unfold completionsAtOffset. cbv zeta.
  destruct (htmlAttrNameAtOffset document offset); [reflexivity|].
  destruct (htmlAttrAssignmentAtOffset document offset); [reflexivity|].
  destruct (htmlAttrAreaAtOffset document offset); [reflexivity|].
  destruct Hsome as [H|[H|H]]; contradiction.
Qed.

Lemma completionsAtOffset_intersection_ignores_word_witness :
  sample_completionsAtOffset sample_document 12 tt =
  completionsAtOffset
    (HtmlNodeAttrAssignment := Z) (DocumentPositionContext := unit)
    (fun _ => "<")
    (fun _ _ => tt)
    sample_nameAt
    (fun _ offset => if Z.eqb offset 12 then Some 2 else None)
    (fun _ offset => if Z.eqb offset 10 then Some 3 else None)
    (fun _ _ => [sample_entry "value"])
    (fun _ _ => [sample_entry "attr"])
    (fun _ _ => [sample_entry "other tag"])
    sample_document 12 tt.
Proof.
  unfold sample_completionsAtOffset.
  apply completionsAtOffset_intersection_ignores_word.
  right. right. simpl. discriminate.
Defined.

End HtmlCompletions.

(* ================================================================== *)
(** * VscodeCssService *)
(* ================================================================== *)

Module VscodeCss.
Import LitTypes.
Local Open Scope Z_scope.

(** ** Data shapes of vscode-css-languageservice *)

Record Position := {
  line : Z;
  character : Z
}.

Record VscRange := {
  vsc_start : Position;
  vsc_end : Position
}.

(** The enumeration [DiagnosticSeverity]. *)
Inductive DiagnosticSeverity :=
| Severity_Error | Severity_Warning | Severity_Information | Severity_Hint.

(** [severity] is an optional field of a service diagnostic. *)
Record Diagnostic := {
  diag_range : VscRange;
  diag_severity : option DiagnosticSeverity;
  diag_message : string
}.

(** The enumeration [CompletionItemKind]. *)
Inductive CompletionItemKind :=
| Kind_Text | Kind_Method | Kind_Function | Kind_Constructor | Kind_Field
| Kind_Variable | Kind_Class | Kind_Interface | Kind_Module | Kind_Property
| Kind_Unit | Kind_Value | Kind_Enum | Kind_Keyword | Kind_Snippet
| Kind_Color | Kind_File | Kind_Reference | Kind_Folder | Kind_EnumMember
| Kind_Constant | Kind_Struct | Kind_Event | Kind_Operator
| Kind_TypeParameter.

Definition CompletionItemKind_eqb (a b : CompletionItemKind) : bool :=
  match a, b with
  | Kind_Text, Kind_Text | Kind_Method, Kind_Method
  | Kind_Function, Kind_Function | Kind_Constructor, Kind_Constructor
  | Kind_Field, Kind_Field | Kind_Variable, Kind_Variable
  | Kind_Class, Kind_Class | Kind_Interface, Kind_Interface
  | Kind_Module, Kind_Module | Kind_Property, Kind_Property
  | Kind_Unit, Kind_Unit | Kind_Value, Kind_Value | Kind_Enum, Kind_Enum
  | Kind_Keyword, Kind_Keyword | Kind_Snippet, Kind_Snippet
  | Kind_Color, Kind_Color | Kind_File, Kind_File
  | Kind_Reference, Kind_Reference | Kind_Folder, Kind_Folder
  | Kind_EnumMember, Kind_EnumMember | Kind_Constant, Kind_Constant
  | Kind_Struct, Kind_Struct | Kind_Event, Kind_Event
  | Kind_Operator, Kind_Operator
  | Kind_TypeParameter, Kind_TypeParameter => true
  | _, _ => false
  end.

(** [MarkupContent] is [{ kind, value }]. *)
Record MarkupContent := {
  markup_kind : string;
  markup_value : string
}.

(** One hover content: a [MarkedString], which is a string or an object
    [{ language, value }], or a [MarkupContent]. *)
Inductive HoverContent :=
| PlainString (s : string)
| CodeBlock (language value : string)
| Markup (m : MarkupContent).

(** [Hover.contents] is one content or an array of contents. *)
Inductive HoverContents :=
| OneContent (c : HoverContent)
| ManyContents (cs : list HoverContent).

Record Hover := {
  hover_contents : HoverContents;
  hover_range : option VscRange
}.

(** [CompletionItem.documentation] is a string or a [MarkupContent]. *)
Inductive Documentation :=
| DocString (s : string)
| DocMarkup (m : MarkupContent).

Record CompletionItem := {
  label : string;
  item_kind : option CompletionItemKind;
  item_documentation : option Documentation
}.

Record CompletionList := {
  isIncomplete : bool;
  items : list CompletionItem
}.

Record IPseudoElementData := {
  pseudo_name : string;
  pseudo_description : option string;
  pseudo_browsers : list string;
  pseudo_status : option string
}.

(** A text document is an object with the methods used below. *)
Record TextDocument := {
  lineCount : Z;
  offsetAt : Position -> Z;
  positionAt : Z -> Position
}.

(** ** Data shapes of the plugin *)

Record VirtualDocument := {
  text : string
}.

Record CssDocument := {
  virtualDocument : VirtualDocument
}.

(** A tag of the store, with the fields read by [update]; [builtIn] is a
    boolean flag. *)
Record HtmlTag := {
  tagName : string;
  description : option string;
  builtIn : bool
}.

(** [getGlobalTags()] yields the global tags in iteration order. *)
Record TsLitPluginStore := {
  getGlobalTags : unit -> list HtmlTag
}.

Record DiagnosticsContext := {
  store : TsLitPluginStore
}.

Record LitCssDiagnostic := {
  severity : string;
  location : Range;
  message : string
}.

Record LitQuickInfo := {
  primaryInfo : string;
  secondaryInfo : option string;
  quickInfo_range : Range
}.

(** ** translateCompletionItemKind *)

Definition translateCompletionItemKind (kind : CompletionItemKind)
  : LitCompletionKind :=
  match kind with
  | Kind_Method => "memberFunctionElement"
  | Kind_Function => "functionElement"
  | Kind_Constructor => "constructorImplementationElement"
  | Kind_Field
  | Kind_Variable => "variableElement"
  | Kind_Class => "classElement"
  | Kind_Interface => "interfaceElement"
  | Kind_Module => "moduleElement"
  | Kind_Property => "memberVariableElement"
  | Kind_Unit
  | Kind_Value => "constElement"
  | Kind_Enum => "enumElement"
  | Kind_Keyword => "keyword"
  | Kind_Color => "constElement"
  | Kind_Reference => "alias"
  | Kind_File => "moduleElement"
  | Kind_Snippet
  | Kind_Text
  | _ => "unknown"
  end.

(** ** LitVscodeCSSDataProvider *)

Section Service.

(** Entries of the three providers that always answer the empty array, and
    the parsed stylesheet, are opaque. *)
Context {IAtDirectiveData IPseudoClassData IPropertyData Stylesheet : Type}.

Record ICSSDataProvider := {
  providePseudoElements : unit -> list IPseudoElementData;
  provideAtDirectives : unit -> list IAtDirectiveData;
  providePseudoClasses : unit -> list IPseudoClassData;
  provideProperties : unit -> list IPropertyData
}.

(** The only mutable field of the class. *)
Record LitVscodeCSSDataProvider := {
  pseudoElementData : list IPseudoElementData
}.

Definition new_LitVscodeCSSDataProvider : LitVscodeCSSDataProvider :=
  {| pseudoElementData := [] |}.

(** [customDataProvider] closes over [this]: its methods read the field at
    the time they are called, so the provider is a function of the current
    state of the object. *)
Definition provider (this : LitVscodeCSSDataProvider) : ICSSDataProvider := {|
  providePseudoElements := fun _ => pseudoElementData this;
  provideAtDirectives := fun _ => [];
  providePseudoClasses := fun _ => [];
  provideProperties := fun _ => []
|}.

(** [update] overwrites the field; [iterableFilter], [iterableMap] and
    [Array.from] keep the iteration order. *)
Definition update (this : LitVscodeCSSDataProvider) (store : TsLitPluginStore)
  : LitVscodeCSSDataProvider := {|
  pseudoElementData :=
    map (fun tag => {|
           pseudo_browsers := [];
           pseudo_description := description tag;
           pseudo_name := tagName tag;
           pseudo_status := Some "standard"
         |})
        (filter (fun tag => negb (builtIn tag)) (getGlobalTags store tt))
|}.

(** ** The language services *)

Record LanguageService := {
  doValidation : TextDocument -> Stylesheet -> list Diagnostic;
  doHover : TextDocument -> Position -> Stylesheet -> option Hover;
  doComplete : TextDocument -> Position -> Stylesheet -> CompletionList;
  parseStylesheet : TextDocument -> Stylesheet
}.

Record LanguageServiceOptions := {
  customDataProviders : list ICSSDataProvider
}.

Variable TextDocument_create : string -> string -> Z -> string -> TextDocument.
Variable getCSSLanguageService : LanguageServiceOptions -> LanguageService.
Variable getSCSSLanguageService : LanguageServiceOptions -> LanguageService.

Definition makeVscTextDocument (cssDocument : CssDocument) : TextDocument :=
  TextDocument_create "untitled://embedded.css" "css" 1
    (text (virtualDocument cssDocument)).

(** ** VscodeCssService *)

Record VscodeCssService := {
  dataProvider : LitVscodeCSSDataProvider
}.

Definition new_VscodeCssService : VscodeCssService :=
  {| dataProvider := new_LitVscodeCSSDataProvider |}.

Definition cssService (this : VscodeCssService) : LanguageService :=
  getCSSLanguageService
    {| customDataProviders := [provider (dataProvider this)] |}.

Definition scssService (this : VscodeCssService) : LanguageService :=
  getSCSSLanguageService
    {| customDataProviders := [provider (dataProvider this)] |}.

Definition makeVscStylesheet (this : VscodeCssService)
    (vscTextDocument : TextDocument) : Stylesheet :=
  parseStylesheet (scssService this) vscTextDocument.

(** [this.dataProvider.update(context.store)] *)
Definition dataProvider_update (this : VscodeCssService)
    (store : TsLitPluginStore) : VscodeCssService :=
  {| dataProvider := update (dataProvider this) store |}.

(** Every method returns its result together with the service object as the
    call leaves it. *)
Definition getDiagnostics (this : VscodeCssService) (document : CssDocument)
    (context : DiagnosticsContext)
  : list LitCssDiagnostic * VscodeCssService :=
  let this := dataProvider_update this (store context) in
  let vscTextDocument := makeVscTextDocument document in
  let vscStylesheet := makeVscStylesheet this vscTextDocument in
  let diagnostics :=
    doValidation (scssService this) vscTextDocument vscStylesheet in
  (map (fun diagnostic => {|
          severity :=
            match diag_severity diagnostic with
            | Some Severity_Error => "error"
            | _ => "warning"
            end;
          location := {|
            range_start :=
              offsetAt vscTextDocument (vsc_start (diag_range diagnostic));
            range_end :=
              offsetAt vscTextDocument (vsc_end (diag_range diagnostic))
          |};
          message := diag_message diagnostic
        |})
       (filter (fun diagnostic =>
                  negb (line (vsc_start (diag_range diagnostic)) =? 0)
                  && (line (vsc_start (diag_range diagnostic))
                      <? lineCount vscTextDocument - 1))
               diagnostics),
   this).

(** The two-character string of the template literal in [getQuickInfo]:
    two line feeds. *)
Definition twoNewlines : string :=
  String (Ascii.ascii_of_nat 10) (String (Ascii.ascii_of_nat 10) EmptyString).

(** [Array.isArray(hover.contents) ? hover.contents : [hover.contents]] *)
Definition contentsArray (contents : HoverContents) : list HoverContent :=
  match contents with
  | ManyContents cs => cs
  | OneContent c => [c]
  end.

(** One turn of the loop over the contents, on the pair
    [(primaryInfo, secondaryInfo)]. *)
Definition quickInfoStep (info : option string * option string)
    (content : HoverContent) : option string * option string :=
  let '(primaryInfo, secondaryInfo) := info in
  let text :=
    match content with
    | PlainString s => s
    | CodeBlock _ value => value
    | Markup m => markup_value m
    end in
  match content with
  | CodeBlock language _ =>
      if String.eqb language "html"
      then (Some (String.append
                    (match primaryInfo with
                     | None => ""
                     | Some _ => twoNewlines
                     end)
                    text),
            secondaryInfo)
      else (primaryInfo, secondaryInfo)
  | _ => (primaryInfo, Some text)
  end.

(** [primaryInfo || ""] *)
Definition orEmptyString (s : option string) : string :=
  match s with
  | Some s => if String.eqb s "" then "" else s
  | None => ""
  end.

Definition getQuickInfo (this : VscodeCssService) (document : CssDocument)
    (offset : Z) (context : DiagnosticsContext)
  : option LitQuickInfo * VscodeCssService :=
  let this := dataProvider_update this (store context) in
  let vscTextDocument := makeVscTextDocument document in
  let vscStylesheet := makeVscStylesheet this vscTextDocument in
  let vscPosition := positionAt vscTextDocument offset in
  let hover :=
    doHover (scssService this) vscTextDocument vscPosition vscStylesheet in
  match hover with
  | None => (None, this)
  | Some hover =>
      match hover_range hover with
      | None => (None, this)
      | Some hover_range =>
          let contents := contentsArray (hover_contents hover) in
          let '(primaryInfo, secondaryInfo) :=
            fold_left quickInfoStep contents (None, None) in
          (Some {|
             primaryInfo := orEmptyString primaryInfo;
             secondaryInfo := secondaryInfo;
             quickInfo_range := {|
               range_start := offsetAt vscTextDocument (vsc_start hover_range);
               range_end := offsetAt vscTextDocument (vsc_end hover_range)
             |}
           |},
           this)
      end
  end.

Definition getCompletions (this : VscodeCssService) (document : CssDocument)
    (offset : Z) (context : DiagnosticsContext)
  : list LitCompletion * VscodeCssService :=
  let this := dataProvider_update this (store context) in
  let vscTextDocument := makeVscTextDocument document in
  let vscStylesheet := makeVscStylesheet this vscTextDocument in
  let vscPosition := positionAt vscTextDocument offset in
  let completionList :=
    doComplete (cssService this) vscTextDocument vscPosition vscStylesheet in
  (map (fun i => {|
          kind :=
            match item_kind i with
            | None => "unknown"
            | Some kind => translateCompletionItemKind kind
            end;
          insert := label i;
          name := label i;
          kindModifiers :=
            match item_kind i with
            | Some Kind_Color => Some "color"
            | _ => None
            end;
          importance :=
            Some (if String.prefix "@" (label i) || String.prefix "-" (label i)
                  then "low"
                  else if String.prefix ":" (label i) then "medium"
                  else "high");
          documentation :=
            Some (fun _ =>
                    match item_documentation i with
                    | None => None
                    | Some (DocString s) => Some s
                    | Some (DocMarkup m) => Some (markup_value m)
                    end);
          range := None
        |})
       (items completionList),
   this).

(** ** Names for the pieces of the three methods *)

(** The text document every method builds from the css document. *)
Definition vscTextDocumentOf (document : CssDocument) : TextDocument :=
  makeVscTextDocument document.

(** What [doValidation] answers inside [getDiagnostics]. *)
Definition serviceDiagnostics (this : VscodeCssService)
    (document : CssDocument) (context : DiagnosticsContext)
  : list Diagnostic :=
  let this := dataProvider_update this (store context) in
  doValidation (scssService this) (vscTextDocumentOf document)
    (makeVscStylesheet this (vscTextDocumentOf document)).

(** The predicate of the [filter] call. *)
Definition keepsDiagnostic (vscTextDocument : TextDocument)
    (diagnostic : Diagnostic) : bool :=
  negb (line (vsc_start (diag_range diagnostic)) =? 0)
  && (line (vsc_start (diag_range diagnostic))
      <? lineCount vscTextDocument - 1).

Definition keptDiagnostics (this : VscodeCssService)
    (document : CssDocument) (context : DiagnosticsContext)
  : list Diagnostic :=
  filter (keepsDiagnostic (vscTextDocumentOf document))
         (serviceDiagnostics this document context).

(** What [doHover] answers inside [getQuickInfo]. *)
Definition serviceHover (this : VscodeCssService) (document : CssDocument)
    (offset : Z) (context : DiagnosticsContext) : option Hover :=
  let this := dataProvider_update this (store context) in
  doHover (scssService this) (vscTextDocumentOf document)
    (positionAt (vscTextDocumentOf document) offset)
    (makeVscStylesheet this (vscTextDocumentOf document)).

(** What [doComplete] answers inside [getCompletions]. *)
Definition serviceCompletions (this : VscodeCssService)
    (document : CssDocument) (offset : Z) (context : DiagnosticsContext)
  : list CompletionItem :=
  let this := dataProvider_update this (store context) in
  items (doComplete (cssService this) (vscTextDocumentOf document)
           (positionAt (vscTextDocumentOf document) offset)
           (makeVscStylesheet this (vscTextDocumentOf document))).

(** A content object that has a [language] field equal to "html". *)
Definition hasLanguageHtml (content : HoverContent) : bool :=
  match content with
  | CodeBlock language _ => String.eqb language "html"
  | _ => false
  end.

(** The entry [update] makes of a tag. *)
Definition pseudoElementOf (tag : HtmlTag) : IPseudoElementData := {|
  pseudo_name := tagName tag;
  pseudo_description := description tag;
  pseudo_browsers := [];
  pseudo_status := Some "standard"
|}.

(** The case labels written out in [translateCompletionItemKind]. *)
Definition explicitlyListed (kind : CompletionItemKind) : bool :=
  match kind with
  | Kind_Method | Kind_Function | Kind_Constructor | Kind_Field
  | Kind_Variable | Kind_Class | Kind_Interface | Kind_Module
  | Kind_Property | Kind_Unit | Kind_Value | Kind_Enum | Kind_Keyword
  | Kind_Color | Kind_Reference | Kind_File | Kind_Snippet | Kind_Text => true
  | _ => false
  end.

(** The members of the union [LitCompletionKind] that the translation can
    answer. *)
Definition translatedKinds : list LitCompletionKind :=
  [ "memberFunctionElement"; "functionElement";
    "constructorImplementationElement"; "variableElement"; "classElement";
    "interfaceElement"; "moduleElement"; "memberVariableElement";
    "constElement"; "enumElement"; "keyword"; "alias"; "unknown" ].

(** The arrow function of the [map] call in [getDiagnostics]. *)
Definition translateDiagnostic (vscTextDocument : TextDocument)
    (diagnostic : Diagnostic) : LitCssDiagnostic := {|
  severity :=
    match diag_severity diagnostic with
    | Some Severity_Error => "error"
    | _ => "warning"
    end;
  location := {|
    range_start := offsetAt vscTextDocument (vsc_start (diag_range diagnostic));
    range_end := offsetAt vscTextDocument (vsc_end (diag_range diagnostic))
  |};
  message := diag_message diagnostic
|}.

(** ** Properties of the translation of diagnostics *)

Lemma Forall2_map_right {A B : Type} (R : A -> B -> Prop) (f : A -> B)
    (l : list A) :
  (forall x, In x l -> R x (f x)) -> Forall2 R l (map f l).
Proof.
  induction l as [|x l IH]; simpl; intros HR; constructor.
  - apply HR. now left.
  - apply IH. intros y Hy. apply HR. now right.
Qed.

Lemma getDiagnostics_unfold (this : VscodeCssService) (document : CssDocument)
    (context : DiagnosticsContext) :
  getDiagnostics this document context =
  (map (translateDiagnostic (vscTextDocumentOf document))
       (keptDiagnostics this document context),
   dataProvider_update this (store context)).
Proof. reflexivity. Qed.

Lemma keepsDiagnostic_spec (vscTextDocument : TextDocument)
    (diagnostic : Diagnostic) :
  keepsDiagnostic vscTextDocument diagnostic = true <->
  line (vsc_start (diag_range diagnostic)) <> 0
  /\ line (vsc_start (diag_range diagnostic)) < lineCount vscTextDocument - 1.
Proof.
  unfold keepsDiagnostic.
  rewrite andb_true_iff, negb_true_iff, Z.eqb_neq, Z.ltb_lt. reflexivity.
Qed.

(** Each of the three methods starts with
    [this.dataProvider.update(context.store)] and changes nothing else. *)
Lemma methods_update_dataProvider (this : VscodeCssService)
    (document : CssDocument) (offset : Z) (context : DiagnosticsContext) :
  snd (getDiagnostics this document context)
    = dataProvider_update this (store context)
  /\ snd (getCompletions this document offset context)
      = dataProvider_update this (store context)
  /\ snd (getQuickInfo this document offset context)
      = dataProvider_update this (store context).
Proof.
  split; [reflexivity|]. split; [reflexivity|].
  unfold getQuickInfo. cbv zeta.
  destruct (doHover _ _ _ _) as [h|]; [|reflexivity].
  destruct (hover_range h); [|reflexivity].
  destruct (fold_left _ _ _). reflexivity.
Qed.

(** C4: every kept service diagnostic is translated, in order, into a plugin
    diagnostic whose severity is "error" exactly when the service severity is
    Error and "warning" in every other case, whose message is the service
    message, and whose location start and end are the offsets of the range
    start and end positions in the virtual text document. *)
Theorem getDiagnostics_translation (this : VscodeCssService)
    (document : CssDocument) (context : DiagnosticsContext) :
  Forall2
    (fun diagnostic out =>
       (severity out = "error" <->
        diag_severity diagnostic = Some Severity_Error)
       /\ (diag_severity diagnostic <> Some Severity_Error ->
           severity out = "warning")
       /\ message out = diag_message diagnostic
       /\ range_start (location out) =
            offsetAt (vscTextDocumentOf document)
                     (vsc_start (diag_range diagnostic))
       /\ range_end (location out) =
            offsetAt (vscTextDocumentOf document)
                     (vsc_end (diag_range diagnostic)))
    (keptDiagnostics this document context)
    (fst (getDiagnostics this document context)).
Proof.
  rewrite getDiagnostics_unfold. cbn [fst].
  apply Forall2_map_right. intros diagnostic _.
  unfold translateDiagnostic; cbn [severity message location range_start range_end].
  destruct (diag_severity diagnostic) as [[]|];
    repeat split; try congruence; try discriminate.
Qed.

(** C9: the diagnostics returned are the translations of the kept service
    diagnostics, and a service diagnostic is kept exactly when its range
    starts on a line other than 0 and below [lineCount - 1]: none that starts
    on line 0, none that starts on the last line or after it, and (line
    numbers being non-negative) only those strictly between the first and
    the last line. *)
Theorem getDiagnostics_suppresses_edges (this : VscodeCssService)
    (document : CssDocument) (context : DiagnosticsContext) :
  let vscTextDocument := vscTextDocumentOf document in
  let startLine := fun diagnostic => line (vsc_start (diag_range diagnostic)) in
  fst (getDiagnostics this document context) =
    map (translateDiagnostic vscTextDocument)
        (keptDiagnostics this document context)
  /\ (forall diagnostic,
        In diagnostic (keptDiagnostics this document context) <->
        In diagnostic (serviceDiagnostics this document context)
        /\ startLine diagnostic <> 0
        /\ startLine diagnostic < lineCount vscTextDocument - 1)
  /\ (forall diagnostic,
        In diagnostic (keptDiagnostics this document context) ->
        startLine diagnostic = 0 -> False)
  /\ (forall diagnostic,
        In diagnostic (keptDiagnostics this document context) ->
        startLine diagnostic >= lineCount vscTextDocument - 1 -> False)
  /\ (forall diagnostic,
        In diagnostic (keptDiagnostics this document context) ->
        0 <= startLine diagnostic ->
        0 < startLine diagnostic < lineCount vscTextDocument - 1).
Proof.
  cbv zeta.
  assert (K : forall diagnostic,
             In diagnostic (keptDiagnostics this document context) <->
             In diagnostic (serviceDiagnostics this document context)
             /\ line (vsc_start (diag_range diagnostic)) <> 0
             /\ line (vsc_start (diag_range diagnostic))
                < lineCount (vscTextDocumentOf document) - 1).
  { intros diagnostic. unfold keptDiagnostics.
    rewrite filter_In, keepsDiagnostic_spec. reflexivity. }
  split; [reflexivity|]. split; [exact K|].
  split; [|split].
  - intros diagnostic Hin Hline. apply K in Hin. tauto.
  - intros diagnostic Hin Hline. apply K in Hin. lia.
  - intros diagnostic Hin Hline. apply K in Hin. lia.
Qed.

(** ** Properties of the data provider *)

(** C5: after [update store] the provider's [providePseudoElements] answers
    exactly one entry per global tag of the store whose [builtIn] flag is
    false, in order, with the tag's name and description, an empty browsers
    list and status "standard"; tags whose flag is true give no entry; the
    three other methods answer the empty list in every state. *)
Theorem update_providePseudoElements (this : LitVscodeCSSDataProvider)
    (store : TsLitPluginStore) :
  let entries := providePseudoElements (provider (update this store)) tt in
  entries =
    map pseudoElementOf
        (filter (fun tag => negb (builtIn tag)) (getGlobalTags store tt))
  /\ (forall entry,
        In entry entries <->
        exists tag,
          In tag (getGlobalTags store tt) /\ builtIn tag = false
          /\ pseudo_name entry = tagName tag
          /\ pseudo_description entry = description tag
          /\ pseudo_browsers entry = []
          /\ pseudo_status entry = Some "standard")
  /\ List.length entries =
       List.length (filter (fun tag => negb (builtIn tag))
                           (getGlobalTags store tt))
  /\ (Forall (fun tag => builtIn tag = true) (getGlobalTags store tt) ->
      entries = [])
  /\ (forall state : LitVscodeCSSDataProvider,
        provideAtDirectives (provider state) tt = []
        /\ providePseudoClasses (provider state) tt = []
        /\ provideProperties (provider state) tt = []).
Proof.
  cbv zeta. cbn [provider update providePseudoElements pseudoElementData].
  split; [reflexivity|]. split; [|split; [|split]].
  - intros entry. rewrite in_map_iff. split.
    + intros [tag [<- Hin]]. apply filter_In in Hin. destruct Hin as [Hin Hb].
      exists tag. apply negb_true_iff in Hb. repeat split; assumption.
    + intros [tag (Hin & Hb & Hn & Hd & Hbr & Hs)].
      exists tag. split.
      * destruct entry as [n d b s]; simpl in *. subst. reflexivity.
      * apply filter_In. split; [exact Hin|]. now rewrite Hb.
  - apply List.length_map.
  - intros Hall.
    induction Hall as [|tag tags Hb _ IH]; simpl; [reflexivity|].
    rewrite Hb. simpl. exact IH.
  - intros state. repeat split.
Qed.

(** ** Properties of the translation of completions *)

Lemma prefix_one_char (c : Ascii.ascii) (s : string) :
  String.prefix (String c EmptyString) s = true <->
  exists rest, s = String c rest.
Proof.
  destruct s as [|a rest]; simpl.
  - split; [discriminate|]. intros [r Hr]. discriminate.
  - destruct (Ascii.ascii_dec c a) as [->|Hne].
    + destruct rest; simpl; split; eauto.
    + split; [discriminate|]. intros [r Hr]. congruence.
Qed.

Lemma prefix_colon_excludes (s : string) :
  String.prefix ":" s = true ->
  String.prefix "@" s = false /\ String.prefix "-" s = false.
Proof.
  intros H. apply prefix_one_char in H. destruct H as [rest ->].
  split; apply not_true_is_false; intros H;
    apply prefix_one_char in H; destruct H as [r Hr]; discriminate.
Qed.

(** C8: [translateCompletionItemKind] answers for every kind, always with one
    of the plugin's kinds: Field and Variable give "variableElement"; Unit,
    Value and Color give "constElement"; File and Module give
    "moduleElement"; Snippet, Text and every kind without a case label of its
    own give "unknown". *)
Theorem translateCompletionItemKind_table :
  (forall kind, In (translateCompletionItemKind kind) translatedKinds)
  /\ translateCompletionItemKind Kind_Field = "variableElement"
  /\ translateCompletionItemKind Kind_Variable = "variableElement"
  /\ translateCompletionItemKind Kind_Unit = "constElement"
  /\ translateCompletionItemKind Kind_Value = "constElement"
  /\ translateCompletionItemKind Kind_Color = "constElement"
  /\ translateCompletionItemKind Kind_File = "moduleElement"
  /\ translateCompletionItemKind Kind_Module = "moduleElement"
  /\ translateCompletionItemKind Kind_Snippet = "unknown"
  /\ translateCompletionItemKind Kind_Text = "unknown"
  /\ (forall kind, explicitlyListed kind = false ->
        translateCompletionItemKind kind = "unknown").
Proof.
  split.
  { intros []; simpl; tauto. }
  repeat split.
  intros []; simpl; intros H; try reflexivity; discriminate.
Qed.

(** C6: every completion item of the CSS service is translated, in order,
    into a completion whose name and insert are the item's label, whose kind
    is "unknown" when the item has no kind (and the translated kind
    otherwise), whose kindModifiers is "color" exactly when the item's kind
    is Color and undefined otherwise, and whose importance is "low" when the
    label starts with "@" or "-", "medium" when it starts with ":", and
    "high" otherwise. *)
Theorem getCompletions_translation (this : VscodeCssService)
    (document : CssDocument) (offset : Z) (context : DiagnosticsContext) :
  Forall2
    (fun i out =>
       name out = label i
       /\ insert out = label i
       /\ (item_kind i = None -> kind out = "unknown")
       /\ (forall k, item_kind i = Some k ->
             kind out = translateCompletionItemKind k)
       /\ (kindModifiers out = Some "color" <-> item_kind i = Some Kind_Color)
       /\ (item_kind i <> Some Kind_Color -> kindModifiers out = None)
       /\ (String.prefix "@" (label i) = true
           \/ String.prefix "-" (label i) = true ->
           importance out = Some "low")
       /\ (String.prefix ":" (label i) = true ->
           importance out = Some "medium")
       /\ (String.prefix "@" (label i) = false ->
           String.prefix "-" (label i) = false ->
           String.prefix ":" (label i) = false ->
           importance out = Some "high"))
    (serviceCompletions this document offset context)
    (fst (getCompletions this document offset context)).
Proof.
  unfold getCompletions, serviceCompletions. cbv zeta. cbn [fst].
  apply Forall2_map_right. intros i _.
  cbn [name insert kind kindModifiers importance].
  split; [reflexivity|]. split; [reflexivity|].
  split; [now intros ->|].
  split; [now intros k ->|].
  split; [|split; [|split; [|split]]].
  - destruct (item_kind i) as [[]|]; split; congruence.
  - destruct (item_kind i) as [[]|]; congruence.
  - intros [H|H]; rewrite H; [reflexivity|].
    now rewrite orb_true_r.
  - intros H. destruct (prefix_colon_excludes _ H) as [Hat Hdash].
    now rewrite Hat, Hdash, H.
  - intros Hat Hdash Hcolon. now rewrite Hat, Hdash, Hcolon.
Qed.

(** ** Properties of the quick info *)

Lemma quickInfoStep_no_html (contents : list HoverContent)
    (primaryInfo secondaryInfo : option string) :
  (forall content, In content contents -> hasLanguageHtml content = false) ->
  fst (fold_left quickInfoStep contents (primaryInfo, secondaryInfo))
  = primaryInfo.
Proof.
  revert primaryInfo secondaryInfo.
  induction contents as [|c cs IH]; intros p s Hno; simpl; [reflexivity|].
  assert (Hc : hasLanguageHtml c = false) by (apply Hno; now left).
  assert (Hcs : forall content, In content cs -> hasLanguageHtml content = false)
    by (intros content Hin; apply Hno; now right).
  destruct c as [str|language value|m]; simpl in *.
  - apply IH, Hcs.
  - rewrite Hc. apply IH, Hcs.
  - apply IH, Hcs.
Qed.

(** C7: [getQuickInfo] answers undefined exactly when the hover of the
    language service is null or has no range; a quick info it answers has as
    range the offsets, in the virtual document, of the start and end
    positions of the hover range, and an empty primaryInfo when no hover
    content has language "html". *)
Theorem getQuickInfo_result (this : VscodeCssService) (document : CssDocument)
    (offset : Z) (context : DiagnosticsContext) :
  let result := fst (getQuickInfo this document offset context) in
  let hover := serviceHover this document offset context in
  (result = None <->
   hover = None \/ exists h, hover = Some h /\ hover_range h = None)
  /\ (forall info, result = Some info ->
        exists h r,
          hover = Some h /\ hover_range h = Some r
          /\ quickInfo_range info =
               {| range_start := offsetAt (vscTextDocumentOf document) (vsc_start r);
                  range_end := offsetAt (vscTextDocumentOf document) (vsc_end r) |}
          /\ ((forall content, In content (contentsArray (hover_contents h)) ->
                 hasLanguageHtml content = false) ->
              primaryInfo info = "")).
Proof.
  cbv zeta. unfold getQuickInfo, serviceHover, vscTextDocumentOf. cbv zeta.
  destruct (doHover _ _ _ _) as [h|]; cbn [fst].
  2:{ split; [tauto|]. intros info Hinfo. discriminate. }
  destruct (hover_range h) as [r|] eqn:Hr; cbn [fst].
  2:{ split.
      - split; [intros _; right; exists h; auto | reflexivity].
      - intros info Hinfo. discriminate. }
  pose proof (quickInfoStep_no_html (contentsArray (hover_contents h)) None None)
    as Hfold.
  destruct (fold_left quickInfoStep (contentsArray (hover_contents h))
              (None, None)) as [p s]; cbn [fst] in *.
  split.
  - split; [discriminate|].
    intros [Hnone|[h' [Hh' Hnorange]]]; [discriminate|].
    injection Hh' as <-. congruence.
  - intros info Hinfo. injection Hinfo as <-.
    exists h, r. repeat split.
    + exact Hr.
    + intros Hno. cbn [primaryInfo]. rewrite (Hfold Hno). reflexivity.
Qed.

(** ** Further properties of [getDiagnostics] *)

(** X7: a css document of at most two lines gives no diagnostics at all,
    whatever the language service reports on non-negative lines: line 0 is
    the first line and line 1 would be the last. *)
Theorem getDiagnostics_short_document (this : VscodeCssService)
    (document : CssDocument) (context : DiagnosticsContext) :
  lineCount (vscTextDocumentOf document) <= 2 ->
  Forall (fun diagnostic => 0 <= line (vsc_start (diag_range diagnostic)))
         (serviceDiagnostics this document context) ->
  fst (getDiagnostics this document context) = [].
Proof.
  intros Hshort Hall. rewrite getDiagnostics_unfold. cbn [fst].
  unfold keptDiagnostics.
  induction Hall as [|d ds Hd _ IH]; cbn [filter map]; [reflexivity|].
  destruct (keepsDiagnostic (vscTextDocumentOf document) d) eqn:K.
  - apply keepsDiagnostic_spec in K. lia.
  - exact IH.
Qed.

(** X8: [getDiagnostics] never returns more diagnostics than the service
    reports, and when every reported diagnostic starts strictly between the
    first and the last line it returns one per reported diagnostic, with the
    messages in the order of the report. *)
Theorem getDiagnostics_inner_lines_all_returned (this : VscodeCssService)
    (document : CssDocument) (context : DiagnosticsContext) :
  (List.length (fst (getDiagnostics this document context))
   <= List.length (serviceDiagnostics this document context))%nat
  /\ (Forall (fun diagnostic =>
                0 < line (vsc_start (diag_range diagnostic))
                  < lineCount (vscTextDocumentOf document) - 1)
             (serviceDiagnostics this document context) ->
      map message (fst (getDiagnostics this document context))
        = map diag_message (serviceDiagnostics this document context)
      /\ List.length (fst (getDiagnostics this document context))
         = List.length (serviceDiagnostics this document context)).
Proof.
  rewrite getDiagnostics_unfold. cbn [fst]. unfold keptDiagnostics.
  rewrite List.length_map. split.
  - apply filter_length_le.
  - intros Hall.
    assert (E : filter (keepsDiagnostic (vscTextDocumentOf document))
                  (serviceDiagnostics this document context)
                = serviceDiagnostics this document context).
    { induction Hall as [|d ds Hd _ IH]; cbn [filter]; [reflexivity|].
      assert (K : keepsDiagnostic (vscTextDocumentOf document) d = true)
        by (apply keepsDiagnostic_spec; lia).
      rewrite K, IH. reflexivity. }
    rewrite E, map_map. split; reflexivity.
Qed.

(** ** The state of the service across calls *)


(** ** Further properties of [update] *)

Lemma NoDup_map_filter {A B : Type} (f : A -> B) (keep : A -> bool)
    (l : list A) :
  NoDup (map f l) -> NoDup (map f (filter keep l)).
Proof.
  induction l as [|x l IH]; cbn [map filter]; intros Hnd; [constructor|].
  inversion Hnd as [|y ys Hnotin Hrest]; subst.
  destruct (keep x); cbn [map]; [constructor|]; auto.
  intros Hin. apply Hnotin.
  apply in_map_iff in Hin. destruct Hin as [z [Hz Hzin]].
  apply in_map_iff. exists z. split; [exact Hz|].
  apply filter_In in Hzin. tauto.
Qed.

(** X10: when the global tags of the store have pairwise distinct names, so
    have the pseudo elements provided after [update]; and there are never
    more pseudo elements than global tags. *)
Theorem update_pseudoElements_distinct (this : LitVscodeCSSDataProvider)
    (store : TsLitPluginStore) :
  let entries := providePseudoElements (provider (update this store)) tt in
  (List.length entries <= List.length (getGlobalTags store tt))%nat
  /\ (NoDup (map tagName (getGlobalTags store tt)) ->
      NoDup (map pseudo_name entries)).
Proof.
  cbv zeta. cbn [provider update providePseudoElements pseudoElementData].
  split.
  - rewrite List.length_map. apply filter_length_le.
  - intros Hnd. rewrite map_map. cbn [pseudo_name].
    apply NoDup_map_filter. exact Hnd.
Qed.

(** ** Further properties of [getCompletions] *)

(** X11: every completion returned has no range, a kind among the plugin
    kinds of the translation, one of the three importance levels, and either
    no kind modifier or the modifier "color" together with the kind
    "constElement"; the names come in the order of the service's items. *)
Theorem getCompletions_entries_wellformed (this : VscodeCssService)
    (document : CssDocument) (offset : Z) (context : DiagnosticsContext) :
  Forall (fun out =>
            range out = None
            /\ In (kind out) translatedKinds
            /\ (importance out = Some "low" \/ importance out = Some "medium"
                \/ importance out = Some "high")
            /\ (kindModifiers out = None
                \/ (kindModifiers out = Some "color"
                    /\ kind out = "constElement")))
         (fst (getCompletions this document offset context))
  /\ map name (fst (getCompletions this document offset context))
     = map label (serviceCompletions this document offset context).
Proof.
  unfold getCompletions, serviceCompletions. cbv zeta. cbn [fst]. split.
  - apply Forall_forall. intros out Hin.
    apply in_map_iff in Hin. destruct Hin as [i [<- _]].
    cbn [range kind importance kindModifiers].
    split; [reflexivity|]. split; [|split].
    + destruct (item_kind i) as [[]|]; simpl; tauto.
    + destruct (String.prefix "@" (label i) || String.prefix "-" (label i));
        [tauto|].
      destruct (String.prefix ":" (label i)); tauto.
    + destruct (item_kind i) as [[]|]; simpl; tauto.
  - rewrite map_map. reflexivity.
Qed.

(** X12: the documentation of every completion is present as a lazy value
    that, when forced, is the item's documentation string, or the value of
    its markup content, and undefined when the item has no documentation. *)
Theorem getCompletions_documentation (this : VscodeCssService)
    (document : CssDocument) (offset : Z) (context : DiagnosticsContext) :
  Forall2
    (fun i out =>
       exists force,
         documentation out = Some force
         /\ (item_documentation i = None -> force tt = None)
         /\ (forall s, item_documentation i = Some (DocString s) ->
               force tt = Some s)
         /\ (forall m, item_documentation i = Some (DocMarkup m) ->
               force tt = Some (markup_value m)))
    (serviceCompletions this document offset context)
    (fst (getCompletions this document offset context)).
Proof.
  unfold getCompletions, serviceCompletions. cbv zeta. cbn [fst].
  apply Forall2_map_right. intros i _. cbn [documentation].
  eexists. split; [reflexivity|]. cbv beta.
  split; [now intros ->|]. split; [now intros s ->|now intros m ->].
Qed.

(** ** Further properties of [getQuickInfo] *)

(** [content.value], or the content itself when it is a string. *)
Definition contentText (content : HoverContent) : string :=
  match content with
  | PlainString s => s
  | CodeBlock _ value => value
  | Markup m => markup_value m
  end.

(** An object content that has a [language] field. *)
Definition hasLanguage (content : HoverContent) : bool :=
  match content with
  | CodeBlock _ _ => true
  | _ => false
  end.

Lemma orEmptyString_Some (s : string) : orEmptyString (Some s) = s.
Proof.
  unfold orEmptyString. destruct (String.eqb_spec s ""); congruence.
Qed.

Lemma getQuickInfo_some (this : VscodeCssService) (document : CssDocument)
    (offset : Z) (context : DiagnosticsContext) (h : Hover) (r : VscRange) :
  serviceHover this document offset context = Some h ->
  hover_range h = Some r ->
  fst (getQuickInfo this document offset context) =
  Some {|
    primaryInfo :=
      orEmptyString
        (fst (fold_left quickInfoStep (contentsArray (hover_contents h))
                (None, None)));
    secondaryInfo :=
      snd (fold_left quickInfoStep (contentsArray (hover_contents h))
             (None, None));
    quickInfo_range := {|
      range_start := offsetAt (vscTextDocumentOf document) (vsc_start r);
      range_end := offsetAt (vscTextDocumentOf document) (vsc_end r)
    |}
  |}.
Proof.
  unfold serviceHover, getQuickInfo, vscTextDocumentOf. cbv zeta.
  intros -> ->.
  destruct (fold_left quickInfoStep (contentsArray (hover_contents h))
              (None, None)) as [p s].
  reflexivity.
Qed.

Lemma quickInfoStep_html_seen (contents : list HoverContent)
    (primaryInfo secondaryInfo : option string) :
  primaryInfo <> None \/ existsb hasLanguageHtml contents = true ->
  fst (fold_left quickInfoStep contents (primaryInfo, secondaryInfo)) <> None.
Proof.
  revert primaryInfo secondaryInfo.
  induction contents as [|c cs IH]; intros p s Hseen; cbn [fold_left].
  - destruct Hseen as [Hp|Hex]; [exact Hp | discriminate].
  - destruct c as [str|language value|m]; cbn [quickInfoStep hasLanguageHtml existsb orb] in *.
    + apply IH. exact Hseen.
    + destruct (String.eqb language "html"); cbn [orb] in Hseen.
      * apply IH. left. discriminate.
      * apply IH. exact Hseen.
    + apply IH. exact Hseen.
Qed.

Lemma existsb_hasLanguageHtml_false (contents : list HoverContent) :
  existsb hasLanguageHtml contents = false ->
  forall content, In content contents -> hasLanguageHtml content = false.
Proof.
  intros Hex content Hin.
  destruct (hasLanguageHtml content) eqn:E; [|reflexivity].
  assert (existsb hasLanguageHtml contents = true)
    by (apply existsb_exists; exists content; auto).
  congruence.
Qed.

Lemma quickInfoStep_primary_last_html (before after : list HoverContent)
    (value : string) :
  (forall content, In content after -> hasLanguageHtml content = false) ->
  fst (fold_left quickInfoStep (before ++ CodeBlock "html" value :: after)
         (None, None))
  = Some (String.append
            (if existsb hasLanguageHtml before then twoNewlines else "")
            value).
Proof.
  intros Hafter. rewrite fold_left_app. cbn [fold_left].
  destruct (fold_left quickInfoStep before (None, None)) as [p s] eqn:F.
  cbn [quickInfoStep]. rewrite String.eqb_refl.
  rewrite (quickInfoStep_no_html after _ s Hafter).
  destruct (existsb hasLanguageHtml before) eqn:Hex.
  - pose proof (quickInfoStep_html_seen before None None (or_intror Hex)) as Hp.
    rewrite F in Hp. cbn [fst] in Hp.
    destruct p; [reflexivity | contradiction].
  - pose proof (quickInfoStep_no_html before None None
                  (existsb_hasLanguageHtml_false before Hex)) as Hp.
    rewrite F in Hp. cbn [fst] in Hp. subst p. reflexivity.
Qed.

Lemma quickInfoStep_secondary_code_blocks (contents : list HoverContent)
    (primaryInfo secondaryInfo : option string) :
  (forall content, In content contents -> hasLanguage content = true) ->
  snd (fold_left quickInfoStep contents (primaryInfo, secondaryInfo))
  = secondaryInfo.
Proof.
  revert primaryInfo.
  induction contents as [|c cs IH]; intros p Hall; cbn [fold_left];
    [reflexivity|].
  assert (Hc : hasLanguage c = true) by (apply Hall; now left).
  assert (Hcs : forall content, In content cs -> hasLanguage content = true)
    by (intros content Hin; apply Hall; now right).
  destruct c as [str|language value|m]; cbn [hasLanguage] in Hc;
    try discriminate.
  cbn [quickInfoStep]. destruct (String.eqb language "html"); apply IH, Hcs.
Qed.

Lemma quickInfoStep_secondary_last_text (before after : list HoverContent)
    (content : HoverContent) :
  hasLanguage content = false ->
  (forall c, In c after -> hasLanguage c = true) ->
  snd (fold_left quickInfoStep (before ++ content :: after) (None, None))
  = Some (contentText content).
Proof.
  intros Hcontent Hafter. rewrite fold_left_app. cbn [fold_left].
  destruct (fold_left quickInfoStep before (None, None)) as [p s].
  destruct content as [str|language value|m]; cbn [hasLanguage] in Hcontent;
    try discriminate; cbn [quickInfoStep contentText];
    apply quickInfoStep_secondary_code_blocks; exact Hafter.
Qed.

(** X13: when the hover has a range and its contents hold a content of
    language "html", the primaryInfo is the value of the last such content
    alone, preceded by two line feeds exactly when an earlier content has
    language "html" too; the values of the earlier ones are not kept. *)
Theorem getQuickInfo_primaryInfo_last_html (this : VscodeCssService)
    (document : CssDocument) (offset : Z) (context : DiagnosticsContext)
    (h : Hover) (r : VscRange) (before after : list HoverContent)
    (value : string) :
  serviceHover this document offset context = Some h ->
  hover_range h = Some r ->
  contentsArray (hover_contents h) = before ++ CodeBlock "html" value :: after ->
  (forall content, In content after -> hasLanguageHtml content = false) ->
  exists info,
    fst (getQuickInfo this document offset context) = Some info
    /\ primaryInfo info =
         String.append
           (if existsb hasLanguageHtml before then twoNewlines else "")
           value.
Proof.
  intros Hh Hr Hcontents Hafter.
  rewrite (getQuickInfo_some this document offset context h r Hh Hr).
  eexists. split; [reflexivity|]. cbn [primaryInfo].
  rewrite Hcontents, (quickInfoStep_primary_last_html before after value Hafter).
  apply orEmptyString_Some.
Qed.

(** X14: when the hover has a range, the secondaryInfo is the text of the
    last content that has no [language] field (a plain string or a markup
    content), and it is undefined when every content has one. *)
Theorem getQuickInfo_secondaryInfo_last_text (this : VscodeCssService)
    (document : CssDocument) (offset : Z) (context : DiagnosticsContext)
    (h : Hover) (r : VscRange) :
  serviceHover this document offset context = Some h ->
  hover_range h = Some r ->
  exists info,
    fst (getQuickInfo this document offset context) = Some info
    /\ (forall before content after,
          contentsArray (hover_contents h) = before ++ content :: after ->
          hasLanguage content = false ->
          (forall c, In c after -> hasLanguage c = true) ->
          secondaryInfo info = Some (contentText content))
    /\ ((forall c, In c (contentsArray (hover_contents h)) ->
           hasLanguage c = true) ->
        secondaryInfo info = None).
Proof.
  intros Hh Hr.
  rewrite (getQuickInfo_some this document offset context h r Hh Hr).
  eexists. split; [reflexivity|]. cbn [secondaryInfo]. split.
  - intros before content after -> Hcontent Hafter.
    apply quickInfoStep_secondary_last_text; assumption.
  - intros Hall. apply quickInfoStep_secondary_code_blocks. exact Hall.
Qed.

End Service.

Arguments ICSSDataProvider : clear implicits.
Arguments LanguageService : clear implicits.
Arguments LanguageServiceOptions : clear implicits.

(** ** A concrete instance

    A text document of four lines of ten characters, a store with one
    built-in and two custom tags, and a language service that reports four
    diagnostics, hovers on lines 1 and 2, and completes with four fixed items
    followed by the pseudo elements of its custom data providers. *)

Definition sample_create (uri languageId : string) (version : Z)
    (content : string) : TextDocument := {|
  lineCount := 4;
  offsetAt := fun position => line position * 10 + character position;
  positionAt := fun offset =>
    {| line := offset / 10; character := offset mod 10 |}
|}.

Definition sample_diagnostic (startLine : Z)
    (sev : option DiagnosticSeverity) (msg : string) : Diagnostic := {|
  diag_range := {|
    vsc_start := {| line := startLine; character := 2 |};
    vsc_end := {| line := startLine; character := 7 |}
  |};
  diag_severity := sev;
  diag_message := msg
|}.

Definition sample_diagnostics : list Diagnostic :=
  [ sample_diagnostic 0 (Some Severity_Error) "first line";
    sample_diagnostic 1 (Some Severity_Error) "unknown property";
    sample_diagnostic 2 None "empty rule";
    sample_diagnostic 3 (Some Severity_Warning) "last line" ].

Definition sample_hover (position : Position) : option Hover :=
  if line position =? 1
  then Some {|
    hover_contents :=
      ManyContents [CodeBlock "css" "color: red"; PlainString "a colour"];
    hover_range := Some {|
      vsc_start := {| line := 1; character := 0 |};
      vsc_end := {| line := 1; character := 5 |}
    |}
  |}
  else if line position =? 2
  then Some {| hover_contents := OneContent (PlainString "no range");
               hover_range := None |}
  else None.

Definition sample_items : list CompletionItem :=
  [ {| label := "@media"; item_kind := Some Kind_Keyword;
       item_documentation := None |};
    {| label := ":hover"; item_kind := Some Kind_Function;
       item_documentation := Some (DocString "pseudo class") |};
    {| label := "red"; item_kind := Some Kind_Color;
       item_documentation := None |};
    {| label := "color"; item_kind := None;
       item_documentation := None |} ].

Definition sample_service (options : LanguageServiceOptions unit unit unit)
  : LanguageService unit := {|
  doValidation := fun _ _ => sample_diagnostics;
  doHover := fun _ position _ => sample_hover position;
  doComplete := fun _ _ _ => {|
    isIncomplete := false;
    items :=
      sample_items
      ++ map (fun element => {|
                label := String.append "::" (pseudo_name element);
                item_kind := Some Kind_Function;
                item_documentation := None |})
             (flat_map (fun p => providePseudoElements p tt)
                       (customDataProviders options))
  |};
  parseStylesheet := fun _ => tt
|}.

Definition sample_store : TsLitPluginStore := {|
  getGlobalTags := fun _ =>
    [ {| tagName := "div"; description := Some "block"; builtIn := true |};
      {| tagName := "my-element"; description := Some "mine";
         builtIn := false |};
      {| tagName := "my-button"; description := None; builtIn := false |} ]
|}.

Definition sample_context : DiagnosticsContext := {| store := sample_store |}.

Definition sample_document : CssDocument :=
  {| virtualDocument := {| text := "a { color: red }" |} |}.

Definition sample_getDiagnostics :=
  getDiagnostics sample_create sample_service new_VscodeCssService
    sample_document sample_context.

Definition sample_getQuickInfo (offset : Z) :=
  getQuickInfo sample_create sample_service new_VscodeCssService
    sample_document offset sample_context.

Definition sample_getCompletions :=
  getCompletions sample_create sample_service sample_service
    new_VscodeCssService sample_document 12 sample_context.

Example sample_getDiagnostics_result :
  fst sample_getDiagnostics =
  [ {| severity := "error";
       location := {| range_start := 12; range_end := 17 |};
       message := "unknown property" |};
    {| severity := "warning";
       location := {| range_start := 22; range_end := 27 |};
       message := "empty rule" |} ].
Proof. reflexivity. Qed.

Example sample_getCompletions_labels :
  map name (fst sample_getCompletions) =
  ["@media"; ":hover"; "red"; "color"; "::my-element"; "::my-button"].
Proof. reflexivity. Qed.

Example sample_getCompletions_importance :
  map importance (fst sample_getCompletions) =
  [Some "low"; Some "medium"; Some "high"; Some "high"; Some "medium";
   Some "medium"].
Proof. reflexivity. Qed.

Example sample_getQuickInfo_line1 :
  fst (sample_getQuickInfo 13) =
  Some {| primaryInfo := ""; secondaryInfo := Some "a colour";
          quickInfo_range := {| range_start := 10; range_end := 15 |} |}.
Proof. reflexivity. Qed.

Lemma getDiagnostics_translation_witness :
  exists out1 out2,
    fst sample_getDiagnostics = [out1; out2]
    /\ severity out1 = "error"
    /\ severity out2 = "warning"
    /\ message out2 = "empty rule"
    /\ range_start (location out1) = 12
    /\ range_end (location out1) = 17.
Proof.
  pose proof (getDiagnostics_translation sample_create sample_service
                new_VscodeCssService sample_document sample_context) as T.
  change (keptDiagnostics sample_create sample_service new_VscodeCssService
            sample_document sample_context)
    with [sample_diagnostic 1 (Some Severity_Error) "unknown property";
          sample_diagnostic 2 None "empty rule"] in T.
  change (fst (getDiagnostics sample_create sample_service
                 new_VscodeCssService sample_document sample_context))
    with (fst sample_getDiagnostics) in T.
  remember (fst sample_getDiagnostics) as outs eqn:Eouts.
  vm_compute in Eouts. rewrite Eouts in T |- *.
  apply Forall2_cons_iff in T. destruct T as [T1 T2].
  apply Forall2_cons_iff in T2. destruct T2 as [T2 _].
  do 2 eexists. split; [reflexivity|].
  destruct T1 as (Hsev1 & _ & _ & Hstart & Hend).
  destruct T2 as (_ & Hsev2 & Hmsg & _).
  split; [apply Hsev1; reflexivity|].
  split; [apply Hsev2; discriminate|].
  split; [exact Hmsg|]. split; [exact Hstart | exact Hend].
Defined.

Lemma getDiagnostics_suppresses_edges_witness :
  In (sample_diagnostic 1 (Some Severity_Error) "unknown property")
     (keptDiagnostics sample_create sample_service new_VscodeCssService
        sample_document sample_context)
  /\ ~ In (sample_diagnostic 0 (Some Severity_Error) "first line")
          (keptDiagnostics sample_create sample_service new_VscodeCssService
             sample_document sample_context)
  /\ ~ In (sample_diagnostic 3 (Some Severity_Warning) "last line")
          (keptDiagnostics sample_create sample_service new_VscodeCssService
             sample_document sample_context)
  /\ 0 < 2 < lineCount (vscTextDocumentOf sample_create sample_document) - 1.
Proof.
  destruct (getDiagnostics_suppresses_edges sample_create sample_service
              new_VscodeCssService sample_document sample_context)
    as (_ & Hiff & Hfirst & Hlast & Hbetween).
  cbv zeta in *.
  split; [|split; [|split]].
  - apply Hiff. split; [|split].
    + simpl. right. left. reflexivity.
    + simpl. lia.
    + simpl. lia.
  - intros Hin. apply (Hfirst _ Hin). reflexivity.
  - intros Hin. apply (Hlast _ Hin). simpl. lia.
  - apply (Hbetween (sample_diagnostic 2 None "empty rule")).
    + apply Hiff. split; [|split].
      * simpl. right. right. left. reflexivity.
      * simpl. lia.
      * simpl. lia.
    + simpl. lia.
Defined.

Lemma update_providePseudoElements_witness :
  In {| pseudo_name := "my-element"; pseudo_description := Some "mine";
        pseudo_browsers := []; pseudo_status := Some "standard" |}
     (providePseudoElements
        (provider (IAtDirectiveData := unit) (IPseudoClassData := unit)
           (IPropertyData := unit)
           (update new_LitVscodeCSSDataProvider sample_store)) tt)
  /\ providePseudoElements
       (provider (IAtDirectiveData := unit) (IPseudoClassData := unit)
          (IPropertyData := unit)
          (update new_LitVscodeCSSDataProvider
             {| getGlobalTags := fun _ =>
                  [ {| tagName := "div"; description := None;
                       builtIn := true |} ] |})) tt = [].
Proof.
  split.
  - destruct (update_providePseudoElements (IAtDirectiveData := unit)
                (IPseudoClassData := unit) (IPropertyData := unit)
                new_LitVscodeCSSDataProvider sample_store)
      as (_ & Hiff & _).
    cbv zeta in Hiff. apply Hiff.
    exists {| tagName := "my-element"; description := Some "mine";
              builtIn := false |}.
    simpl. repeat split. right. left. reflexivity.
  - destruct (update_providePseudoElements (IAtDirectiveData := unit)
                (IPseudoClassData := unit) (IPropertyData := unit)
                new_LitVscodeCSSDataProvider
                {| getGlobalTags := fun _ =>
                     [ {| tagName := "div"; description := None;
                          builtIn := true |} ] |})
      as (_ & _ & _ & Hall & _).
    cbv zeta in Hall. apply Hall.
    constructor; [reflexivity | constructor].
Defined.

Lemma translateCompletionItemKind_table_witness :
  translateCompletionItemKind Kind_Folder = "unknown"
  /\ translateCompletionItemKind Kind_TypeParameter = "unknown".
Proof.
  destruct translateCompletionItemKind_table
    as (_ & _ & _ & _ & _ & _ & _ & _ & _ & _ & Hdefault).
  split; apply Hdefault; reflexivity.
Defined.

Lemma getCompletions_translation_witness :
  exists out1 out2 out3 out4 rest,
    fst sample_getCompletions = out1 :: out2 :: out3 :: out4 :: rest
    /\ name out1 = "@media" /\ importance out1 = Some "low"
    /\ importance out2 = Some "medium"
    /\ kindModifiers out3 = Some "color" /\ importance out3 = Some "high"
    /\ kind out4 = "unknown" /\ kindModifiers out4 = None.
Proof.
  pose proof (getCompletions_translation sample_create sample_service
                sample_service new_VscodeCssService sample_document 12
                sample_context) as T.
  change (fst (getCompletions sample_create sample_service sample_service
                 new_VscodeCssService sample_document 12 sample_context))
    with (fst sample_getCompletions) in T.
  remember (fst sample_getCompletions) as outs eqn:Eouts.
  vm_compute in Eouts.
  rewrite Eouts in T |- *.
  apply Forall2_cons_iff in T. destruct T as [T1 T].
  apply Forall2_cons_iff in T. destruct T as [T2 T].
  apply Forall2_cons_iff in T. destruct T as [T3 T].
  apply Forall2_cons_iff in T. destruct T as [T4 _].
  destruct T1 as (Hname1 & _ & _ & _ & _ & _ & Hlow & _).
  destruct T2 as (_ & _ & _ & _ & _ & _ & _ & Hmedium & _).
  destruct T3 as (_ & _ & _ & _ & Hcolor & _ & _ & _ & Hhigh).
  destruct T4 as (_ & _ & Hunknown & _ & _ & Hnocolor & _).
  do 5 eexists. split; [reflexivity|].
  split; [exact Hname1|].
  split; [apply Hlow; left; reflexivity|].
  split; [apply Hmedium; reflexivity|].
  split; [apply Hcolor; reflexivity|].
  split; [apply Hhigh; reflexivity|].
  split; [apply Hunknown; reflexivity|].
  apply Hnocolor. discriminate.
Defined.

Lemma getQuickInfo_result_witness :
  fst (sample_getQuickInfo 35) = None
  /\ fst (sample_getQuickInfo 24) = None
  /\ exists info,
       fst (sample_getQuickInfo 13) = Some info
       /\ quickInfo_range info = {| range_start := 10; range_end := 15 |}
       /\ primaryInfo info = "".
Proof.
  split; [|split].
  - destruct (getQuickInfo_result sample_create sample_service
                new_VscodeCssService sample_document 35 sample_context)
      as (Hnone & _).
    cbv zeta in Hnone. apply Hnone. left. reflexivity.
  - destruct (getQuickInfo_result sample_create sample_service
                new_VscodeCssService sample_document 24 sample_context)
      as (Hnone & _).
    cbv zeta in Hnone. apply Hnone. right.
    eexists. split; reflexivity.
  - destruct (getQuickInfo_result sample_create sample_service
                new_VscodeCssService sample_document 13 sample_context)
      as (_ & Hsome).
    cbv zeta in Hsome.
    destruct (Hsome _ eq_refl) as (h & r & Hh & Hr & Hrange & Hprimary).
    eexists. split; [reflexivity|].
    vm_compute in Hh. injection Hh as <-.
    vm_compute in Hr. injection Hr as <-.
    split; [exact Hrange|].
    apply Hprimary. simpl. intros content [<-|[<-|[]]]; reflexivity.
Defined.

(** ** Which service answers what *)

(** X15: [getCompletions] takes its items from the CSS service and uses the
    SCSS service for parsing the stylesheet only: two SCSS services that
    parse alike give the same completions and the same state, whatever else
    they answer. *)
Theorem getCompletions_uses_scss_for_parsing_only
    {IAtDirectiveData IPseudoClassData IPropertyData Stylesheet : Type}
    (create : string -> string -> Z -> string -> TextDocument)
    (css scss1 scss2 :
       LanguageServiceOptions IAtDirectiveData IPseudoClassData IPropertyData
       -> LanguageService Stylesheet)
    (this : VscodeCssService) (document : CssDocument) (offset : Z)
    (context : DiagnosticsContext) :
  (forall options vscTextDocument,
     parseStylesheet (scss1 options) vscTextDocument
     = parseStylesheet (scss2 options) vscTextDocument) ->
  getCompletions create css scss1 this document offset context
  = getCompletions create css scss2 this document offset context.
Proof.
  intros Hparse. unfold getCompletions, makeVscStylesheet, scssService.
  cbv zeta. rewrite Hparse. reflexivity.
Qed.

(** ** Further concrete instances *)

(** A text document of two lines. *)
Definition sample_create_short (uri languageId : string) (version : Z)
    (content : string) : TextDocument := {|
  lineCount := 2;
  offsetAt := fun position => line position * 10 + character position;
  positionAt := fun offset =>
    {| line := offset / 10; character := offset mod 10 |}
|}.

(** A service that reports on inner lines only and hovers, on line 1, with
    two contents of language "html" around a plain string. *)
Definition sample_inner_service
    (options : LanguageServiceOptions unit unit unit)
  : LanguageService unit := {|
  doValidation := fun _ _ =>
    [ sample_diagnostic 2 (Some Severity_Hint) "second";
      sample_diagnostic 1 (Some Severity_Error) "first" ];
  doHover := fun _ position _ =>
    if line position =? 1
    then Some {|
      hover_contents :=
        ManyContents [CodeBlock "html" "<my-element>"; PlainString "note";
                      CodeBlock "html" "<my-button>"; CodeBlock "css" "a {}"];
      hover_range := Some {|
        vsc_start := {| line := 1; character := 1 |};
        vsc_end := {| line := 1; character := 4 |}
      |}
    |}
    else None;
  doComplete := fun _ _ _ => {| isIncomplete := false; items := [] |};
  parseStylesheet := fun _ => tt
|}.

Example sample_inner_getQuickInfo :
  fst (getQuickInfo sample_create sample_inner_service new_VscodeCssService
         sample_document 13 sample_context) =
  Some {| primaryInfo := String.append twoNewlines "<my-button>";
          secondaryInfo := Some "note";
          quickInfo_range := {| range_start := 11; range_end := 14 |} |}.
Proof. reflexivity. Qed.

Lemma getDiagnostics_short_document_witness :
  fst (getDiagnostics sample_create_short sample_service new_VscodeCssService
         sample_document sample_context) = [].
Proof.
  apply getDiagnostics_short_document.
  - simpl. lia.
  - repeat constructor; simpl; lia.
Defined.

Lemma getDiagnostics_inner_lines_all_returned_witness :
  map message
      (fst (getDiagnostics sample_create sample_inner_service
              new_VscodeCssService sample_document sample_context))
  = ["second"; "first"].
Proof.
  destruct (getDiagnostics_inner_lines_all_returned sample_create
              sample_inner_service new_VscodeCssService sample_document
              sample_context) as (_ & Hall).
  destruct Hall as [Hmessages _].
  - repeat constructor; simpl; lia.
  - exact Hmessages.
Defined.

Lemma update_pseudoElements_distinct_witness :
  NoDup (map pseudo_name
           (providePseudoElements
              (provider (IAtDirectiveData := unit) (IPseudoClassData := unit)
                 (IPropertyData := unit)
                 (update new_LitVscodeCSSDataProvider sample_store)) tt)).
Proof.
  destruct (update_pseudoElements_distinct (IAtDirectiveData := unit)
              (IPseudoClassData := unit) (IPropertyData := unit)
              new_LitVscodeCSSDataProvider sample_store) as (_ & Hdistinct).
  cbv zeta in Hdistinct. apply Hdistinct. simpl.
  repeat constructor; simpl; intuition discriminate.
Defined.

Lemma getCompletions_documentation_witness :
  exists out1 out2 force rest,
    fst sample_getCompletions = out1 :: out2 :: rest
    /\ documentation out2 = Some force
    /\ force tt = Some "pseudo class".
Proof.
  pose proof (getCompletions_documentation sample_create sample_service
                sample_service new_VscodeCssService sample_document 12
                sample_context) as T.
  change (fst (getCompletions sample_create sample_service sample_service
                 new_VscodeCssService sample_document 12 sample_context))
    with (fst sample_getCompletions) in T.
  remember (fst sample_getCompletions) as outs eqn:Eouts.
  vm_compute in Eouts.
  rewrite Eouts in T |- *.
  apply Forall2_cons_iff in T. destruct T as [_ T].
  apply Forall2_cons_iff in T. destruct T as [T2 _].
  destruct T2 as (force & Hdoc & _ & Hstring & _).
  do 2 eexists. exists force. eexists. split; [reflexivity|].
  split; [exact Hdoc|]. apply Hstring. reflexivity.
Defined.

Lemma getQuickInfo_primaryInfo_last_html_witness :
  exists info,
    fst (getQuickInfo sample_create sample_inner_service new_VscodeCssService
           sample_document 13 sample_context) = Some info
    /\ primaryInfo info = String.append twoNewlines "<my-button>".
Proof.
  eapply getQuickInfo_primaryInfo_last_html
    with (before := [CodeBlock "html" "<my-element>"; PlainString "note"])
         (after := [CodeBlock "css" "a {}"]).
  - reflexivity.
  - reflexivity.
  - reflexivity.
  - simpl. intros content [<-|[]]. reflexivity.
Defined.

Lemma getQuickInfo_secondaryInfo_last_text_witness :
  exists info,
    fst (getQuickInfo sample_create sample_inner_service new_VscodeCssService
           sample_document 13 sample_context) = Some info
    /\ secondaryInfo info = Some "note".
Proof.
  edestruct (getQuickInfo_secondaryInfo_last_text sample_create
               sample_inner_service new_VscodeCssService sample_document 13
               sample_context)
    as (info & Hinfo & Hlast & _); [reflexivity | reflexivity |].
  exists info. split; [exact Hinfo|].
  apply (Hlast [CodeBlock "html" "<my-element>"] (PlainString "note")
           [CodeBlock "html" "<my-button>"; CodeBlock "css" "a {}"]).
  - reflexivity.
  - reflexivity.
  - simpl. intros c [<-|[<-|[]]]; reflexivity.
Defined.

Lemma getCompletions_uses_scss_for_parsing_only_witness :
  getCompletions sample_create sample_service sample_service
    new_VscodeCssService sample_document 12 sample_context
  = getCompletions sample_create sample_service sample_inner_service
      new_VscodeCssService sample_document 12 sample_context.
Proof.
  apply getCompletions_uses_scss_for_parsing_only.
  intros options vscTextDocument. reflexivity.
Defined.

End VscodeCss.
